(** * Auto-commit scheduler: the repository manager

    A shallow embedding of [src/git_repository_manager.py] (class
    [GitRepositoryManager]) and of the constants it imports, followed by the
    properties of the specification that concern it.

    The Python code talks to three collaborators that are not part of the
    repository: the filesystem ([pathlib], [open]), the [json] module and the
    [git] executable reached through [subprocess.run].  They are gathered in
    a record [Env]; the code itself is written in a state-and-exception monad
    over a [World] that holds the files the program can see and the trace of
    what it did. *)

From Stdlib Require Import SpecFloat.
From stdpp Require Import base option list strings gmap pretty.

Open Scope string_scope.
Open Scope list_scope.

(** ** Python values *)

(** What [json.load] can return.  A JSON object keeps its members in the
    order of the document, as a Python [dict] does; a [float] is the IEEE 754
    value it denotes. *)
#[warnings="-register-all"]
Inductive pyvalue : Type :=
  | PyNone
  | PyBool (b : bool)
  | PyInt (z : Z)
  | PyFloat (f : spec_float)
  | PyStr (s : string)
  | PyList (l : list pyvalue)
  | PyDict (d : list (string * pyvalue)).

(** [bool(v)], the test behind [if not paths]. *)
Definition truthy (v : pyvalue) : bool :=
  match v with
  | PyNone => false
  | PyBool b => b
  | PyInt z => negb (z =? 0)%Z
  | PyFloat f => match f with S754_zero _ => false | _ => true end
  | PyStr s => negb (String.eqb s "")
  | PyList l => match l with [] => false | _ => true end
  | PyDict d => match d with [] => false | _ => true end
  end.

(** ** Exceptions *)

(** The classes of the exceptions that can reach this program, with the
    part of Python's hierarchy that its [except] clauses look at. *)
Inductive exn_class : Set :=
  | BaseException | Exception
  | KeyboardInterrupt | SystemExit
  | OSError | FileNotFoundError | PermissionError | IsADirectoryError
  | ValueError | JSONDecodeError | UnicodeDecodeError
  | TypeError | AttributeError | MemoryError
  | RuntimeError | RecursionError
  | SubprocessError | CalledProcessError | TimeoutExpired.

#[global] Instance exn_class_eq_dec : EqDecision exn_class.
Proof. solve_decision. Defined.

Definition base_class (c : exn_class) : option exn_class :=
  match c with
  | BaseException => None
  | Exception | KeyboardInterrupt | SystemExit => Some BaseException
  | OSError | ValueError | TypeError | AttributeError | MemoryError
  | RuntimeError | SubprocessError => Some Exception
  | RecursionError => Some RuntimeError
  | FileNotFoundError | PermissionError | IsADirectoryError => Some OSError
  | JSONDecodeError | UnicodeDecodeError => Some ValueError
  | CalledProcessError | TimeoutExpired => Some SubprocessError
  end.

Fixpoint issubclass_fuel (fuel : nat) (c d : exn_class) : bool :=
  if decide (c = d) then true
  else match fuel, base_class c with
       | S k, Some b => issubclass_fuel k b d
       | _, _ => false
       end.

(** The hierarchy above is four levels deep. *)
Definition issubclass (c d : exn_class) : bool := issubclass_fuel 4 c d.

(** A raised exception: its class, what [str(e)] shows, and the captured
    streams that a [CalledProcessError] carries ([e.stdout], [e.stderr];
    empty for the other classes). *)
Record exn : Type := mkExn {
  exn_cls : exn_class;
  exn_text : string;
  exn_stdout : string;
  exn_stderr : string
}.

Definition isinstance (e : exn) (c : exn_class) : bool := issubclass (exn_cls e) c.

(** ** Paths *)

(** A [pathlib.Path]: the string it was built from and the names joined to
    it with [/]. *)
Record Path : Set := mkPath { path_arg : string; path_joined : list string }.

#[global] Instance Path_eq_dec : EqDecision Path.
Proof. solve_decision. Defined.

#[global] Instance Path_countable : Countable Path.
Proof.
  refine (inj_countable' (fun p => (path_arg p, path_joined p))
                         (fun q => mkPath q.1 q.2) _).
  by intros [].
Defined.

Definition Path_ (s : string) : Path := mkPath s [].
Definition joinpath (p : Path) (child : string) : Path :=
  mkPath (path_arg p) (path_joined p ++ [child]).
Infix "</>" := joinpath (at level 40, left associativity).

(** ** Log records and the trace *)

Inductive level : Set := INFO | WARNING | ERROR.

(** A formatted message: literal text with the holes that are filled by
    [str(path)] and [str(exception)]. *)
Inductive piece : Type :=
  | Text (s : string)
  | PathStr (p : Path)
  | ExnStr (e : exn).

Definition message : Type := list piece.

Inductive event : Type :=
  | ECall (name : string) (path : pyvalue)
      (** entry into [update_repository], as a mock's call list records it *)
  | ERun (argv : list string) (cwd : Path)      (** [subprocess.run] *)
  | EWrite (p : Path) (text : string)
      (** a file opened for writing, and what it was left holding *)
  | ELog (lvl : level) (msg : message).

Definition invocation : Type := list string * Path.

Fixpoint runs_of (t : list event) : list invocation :=
  match t with
  | [] => []
  | ERun argv cwd :: t' => (argv, cwd) :: runs_of t'
  | _ :: t' => runs_of t'
  end.

Fixpoint calls_of (t : list event) : list (string * pyvalue) :=
  match t with
  | [] => []
  | ECall n p :: t' => (n, p) :: calls_of t'
  | _ :: t' => calls_of t'
  end.

Fixpoint logs_of (t : list event) : list (level * message) :=
  match t with
  | [] => []
  | ELog l m :: t' => (l, m) :: logs_of t'
  | _ :: t' => logs_of t'
  end.

Fixpoint writes_of (t : list event) : list (Path * string) :=
  match t with
  | [] => []
  | EWrite p s :: t' => (p, s) :: writes_of t'
  | _ :: t' => writes_of t'
  end.

(** ** The world *)

Inductive node : Type :=
  | File (text : string)
  | Dir.

(** [fs] holds the files as the program's own file operations see them
    ([Path.exists], [open]); what [git] does below [.git] and what the logging
    handlers append to the log file belong to the collaborators and are not
    part of it. *)
Record World : Type := mkWorld {
  fs : gmap Path node;
  trace : list event
}.

(** What a finished or failed child process looks like to
    [subprocess.run(..., check=True, capture_output=True, text=True)]. *)
Inductive run_outcome : Type :=
  | Completed (stdout stderr : string)            (** exit status zero *)
  | NonZeroExit (returncode : Z) (stdout stderr : string)
  | RunRaises (e : exn).                          (** no process result at all *)

(** The collaborators.  The [git] executable answers an invocation knowing
    the invocations made before it; the fault fields say which filesystem
    operations raise instead of answering.

    A failure to write comes at one of two moments.  When [open(p, "w")]
    itself raises, the file is as it was.  When it raises later, in the write
    or when the file is flushed and closed, [open] has already created or
    truncated the file, which is left holding the part of the text that
    reached it: [torn_write] gives the length of that part, and is [None]
    when the failure is the one of [open].

    [json.load] returns a value or raises: [JSONDecodeError] on a text that
    is not JSON, and on some texts that are JSON another exception, such as
    [ValueError] on an integer of too many digits or [RecursionError] on
    arrays nested too deep. *)
Record Env : Type := mkEnv {
  git : list invocation -> invocation -> run_outcome;
  stat_fault : Path -> option exn;     (** [Path.exists] raising *)
  read_fault : Path -> option exn;     (** [open(p, "r")] or the read raising *)
  write_fault : Path -> option exn;    (** [open(p, "w")] or the write raising *)
  torn_write : Path -> option nat;     (** the write raising after [open] succeeded *)
  json_loads : string -> option pyvalue;  (** [None]: [json.load] raises *)
  json_error : string -> exn;             (** what it raises then *)
  json_dumps : pyvalue -> string;         (** [json.dump(v, file, indent=4)] *)
  timestamp : string    (** [datetime.now().strftime('%Y-%m-%d %H:%M')] at import *)
}.

(** ** The monad *)

Inductive result (A : Type) : Type :=
  | Ok (a : A)
  | Raise (e : exn).
Arguments Ok {A} a.
Arguments Raise {A} e.

Definition M (A : Type) : Type := World -> result A * World.

Definition ret {A} (a : A) : M A := fun w => (Ok a, w).
Definition bind {A B} (m : M A) (k : A -> M B) : M B :=
  fun w => match m w with
           | (Ok a, w') => k a w'
           | (Raise e, w') => (Raise e, w')
           end.
Definition raise {A} (e : exn) : M A := fun w => (Raise e, w).

(** [try: body / except cls as e: handler e]. *)
Definition try_except {A} (body : M A) (cls : exn_class) (handler : exn -> M A) : M A :=
  fun w => match body w with
           | (Ok a, w') => (Ok a, w')
           | (Raise e, w') => if isinstance e cls then handler e w' else (Raise e, w')
           end.

#[global] Instance M_ret : MRet M := @ret.
#[global] Instance M_bind : MBind M := fun A B k m => bind m k.

Definition emit (e : event) : M unit :=
  fun w => (Ok tt, mkWorld (fs w) (trace w ++ [e])).

(** ** Library operations *)

(** [str.isspace] on the code points below 256, which is where the model
    keeps the characters of a [str]. *)
Definition isspace (c : Ascii.ascii) : bool :=
  let n := Ascii.nat_of_ascii c in
  (((9 <=? n) && (n <=? 13)) || ((28 <=? n) && (n <=? 32))
   || (n =? 133) || (n =? 160))%nat.

Fixpoint lstrip (s : string) : string :=
  match s with
  | String c s' => if isspace c then lstrip s' else s
  | EmptyString => EmptyString
  end.

(** [rstrip] keeps a character when it is not a space or when something
    remains after it. *)
Fixpoint rstrip (s : string) : string :=
  match s with
  | String c s' =>
      match rstrip s' with
      | EmptyString => if isspace c then EmptyString else String c EmptyString
      | r => String c r
      end
  | EmptyString => EmptyString
  end.

(** [s.strip()]. *)
Definition strip (s : string) : string := rstrip (lstrip s).

(** [bool(s)] for a [str]. *)
Definition nonempty (s : string) : bool :=
  match s with EmptyString => false | _ => true end.

(** [' '.join(command)]. *)
Definition join_spaces (command : list string) : string := String.concat " " command.

Section Manager.

Variable env : Env.

(** [self.paths_file]. *)
Variable paths_file : Path.

(** *** [constants.py] *)

Definition DEFAULT_COMMIT_MESSAGE : string :=
  "Auto-commit: Updated files - " +:+ timestamp env.
Definition READ_COMMAND : string := "r".
Definition WRITE_COMMAND : string := "w".

(** *** The collaborators as monadic operations *)

Definition log (lvl : level) (msg : message) : M unit := emit (ELog lvl msg).

(** [p.exists()]. *)
Definition exists_ (p : Path) : M bool :=
  fun w => match stat_fault env p with
           | Some e => (Raise e, w)
           | None => (Ok (bool_decide (is_Some (fs w !! p))), w)
           end.

(** [with open(p, READ_COMMAND) as file: file.read()]: the whole text. *)
Definition read_text (p : Path) : M string :=
  fun w => match read_fault env p with
           | Some e => (Raise e, w)
           | None =>
               match fs w !! p with
               | Some (File text) => (Ok text, w)
               | Some Dir => (Raise (mkExn IsADirectoryError "Is a directory" "" ""), w)
               | None => (Raise (mkExn FileNotFoundError "No such file or directory" "" ""), w)
               end
           end.

(** [with open(p, WRITE_COMMAND) as file: file.write(text)].  [open]
    refuses a directory and otherwise creates or truncates the file; the
    text, or the part of it that a failing write let through, follows. *)
Definition write_text (p : Path) (text : string) : M unit :=
  fun w =>
    let left_holding s :=
      mkWorld (<[p := File s]> (fs w)) (trace w ++ [EWrite p s]) in
    match write_fault env p with
    | None =>
        match fs w !! p with
        | Some Dir => (Raise (mkExn IsADirectoryError "Is a directory" "" ""), w)
        | _ => (Ok tt, left_holding text)
        end
    | Some e =>
        match torn_write env p with
        | None => (Raise e, w)
        | Some n =>
            match fs w !! p with
            | Some Dir => (Raise (mkExn IsADirectoryError "Is a directory" "" ""), w)
            | _ => (Raise e, left_holding (String.substring 0 n text))
            end
        end
    end.

(** [json.load(file)] on the text read. *)
Definition json_load (text : string) : M pyvalue :=
  match json_loads env text with
  | Some v => ret v
  | None => raise (json_error env text)
  end.

(** [subprocess.run(argv, cwd=cwd, check=True, capture_output=True,
    text=True)]; the value is the captured [stdout]. *)
Definition subprocess_run (argv : list string) (cwd : Path) : M string :=
  fun w =>
    let w' := mkWorld (fs w) (trace w ++ [ERun argv cwd]) in
    match git env (runs_of (trace w)) (argv, cwd) with
    | Completed out _ => (Ok out, w')
    | NonZeroExit rc out err =>
        (Raise (mkExn CalledProcessError "returned non-zero exit status" out err), w')
    | RunRaises e => (Raise e, w')
    end.

(** *** The methods of [GitRepositoryManager] *)

Definition _save_paths (paths : pyvalue) : M unit :=
  try_except
    (write_text paths_file (json_dumps env paths))
    OSError
    (fun e => log ERROR [Text "Error writing to "; PathStr paths_file; Text ": "; ExnStr e]).

(** The result is a [dict[str, str] | None] by annotation; what comes back
    is whatever [json.load] produced, or [None] when the function falls off
    its end after logging the decoding error. *)
Definition load_paths : M pyvalue :=
  present ← exists_ paths_file;
  if negb present then
    log WARNING [PathStr paths_file; Text " not found. Creating empty paths file."];;
    _save_paths (PyDict []);;
    mret (PyDict [])
  else
    try_except
      (text ← read_text paths_file;
       paths ← json_load text;
       mret paths)
      JSONDecodeError
      (fun e =>
         log ERROR [Text "Error reading "; PathStr paths_file; Text ": "; ExnStr e];;
         mret PyNone).

(** [bool | None]: [None] is the fall-through after the logged error. *)
Definition _has_changes (repo_path : Path) : M (option bool) :=
  try_except
    (out ← subprocess_run ["git"; "status"; "--porcelain"] repo_path;
     mret (Some (nonempty (strip out))))
    CalledProcessError
    (fun e =>
       log ERROR [Text "Failed to check git status in "; PathStr repo_path;
                  Text ": "; ExnStr e];;
       mret None).

Definition newline : string := String (Ascii.ascii_of_nat 10) EmptyString.

Definition _execute_git_command (command : list string) (repo_path : Path) : M bool :=
  try_except
    (subprocess_run command repo_path;;
     mret true)
    CalledProcessError
    (fun e =>
       let error_msg :=
         [Text ("Git command " +:+ join_spaces command +:+ " failed in ");
          PathStr repo_path; Text ": "; ExnStr e] in
       let error_msg :=
         if nonempty (exn_stdout e)
         then error_msg ++ [Text (newline +:+ "STDOUT: " +:+ strip (exn_stdout e))]
         else error_msg in
       let error_msg :=
         if nonempty (exn_stderr e)
         then error_msg ++ [Text (newline +:+ "STDERR: " +:+ strip (exn_stderr e))]
         else error_msg in
       log ERROR error_msg;;
       mret false).

(** [not x] for the [bool | None] that [_has_changes] returns. *)
Definition py_not (x : option bool) : bool :=
  match x with
  | Some true => false
  | Some false | None => true
  end.

(** The body of the [try] block of [update_repository]. *)
Definition update_steps (name path : string) (repo_path : Path) : M bool :=
  changes ← _has_changes repo_path;
  if py_not changes then
    log INFO [Text ("No changes to commit in " +:+ name +:+ ": " +:+ path)];;
    mret true
  else
    staged ← _execute_git_command ["git"; "add"; "."] repo_path;
    if negb staged then mret false
    else
      committed ← _execute_git_command
                    ["git"; "commit"; "-m"; DEFAULT_COMMIT_MESSAGE] repo_path;
      if negb committed then mret false
      else
        pushed ← _execute_git_command ["git"; "push"] repo_path;
        if negb pushed then mret false
        else
          log INFO [Text ("Successfully auto-committed and pushed changes in "
                          +:+ name +:+ ": " +:+ path)];;
          mret true.

(** [path] is whatever the mapping holds for [name]; [Path(path)] accepts
    a [str] and raises [TypeError] on the other JSON values. *)
Definition update_repository (name : string) (path : pyvalue) : M bool :=
  emit (ECall name path);;
  match path with
  | PyStr p =>
      let repo_path := Path_ p in
      present ← exists_ repo_path;
      if negb present then
        log ERROR [Text ("Path for " +:+ name +:+ " does not exist: " +:+ p)];;
        mret false
      else
        has_git ← exists_ (repo_path </> ".git");
        if negb has_git then
          log WARNING [Text ("Directory " +:+ name +:+ " is not a git repository: " +:+ p)];;
          mret false
        else
          try_except
            (update_steps name p repo_path)
            Exception
            (fun e =>
               log ERROR [Text ("Unexpected error updating " +:+ name +:+ ": " +:+ p +:+ " - ");
                          ExnStr e];;
               mret false)
  | _ => raise (mkExn TypeError "expected str, bytes or os.PathLike object" "" "")
  end.

(** [paths.items()]: defined on a [dict] only. *)
Definition items (paths : pyvalue) : M (list (string * pyvalue)) :=
  match paths with
  | PyDict d => mret d
  | _ => raise (mkExn AttributeError "object has no attribute 'items'" "" "")
  end.

(** The [for name, path in paths.items()] loop with its counter. *)
Fixpoint update_loop (entries : list (string * pyvalue)) (success_count : nat) : M nat :=
  match entries with
  | [] => mret success_count
  | (name, path) :: rest =>
      updated ← update_repository name path;
      update_loop rest (if (updated : bool) then S success_count else success_count)
  end.

Definition update_all_repositories : M unit :=
  paths ← load_paths;
  if negb (truthy paths) then
    log WARNING [Text "No repository paths found"]
  else
    entries ← items paths;
    success_count ← update_loop entries 0;
    log INFO [Text ("Successfully updated " +:+ pretty success_count +:+ "/"
                    +:+ pretty (List.length entries) +:+ " repositories")].

End Manager.

(** ** Vocabulary of the statements *)

Definition status_argv : list string := ["git"; "status"; "--porcelain"].
Definition add_argv : list string := ["git"; "add"; "."].
Definition commit_argv (env : Env) : list string :=
  ["git"; "commit"; "-m"; DEFAULT_COMMIT_MESSAGE env].
Definition push_argv : list string := ["git"; "push"].

(** The probe [p.exists()] answers, and answers [b]. *)
Definition exists_is (env : Env) (w : World) (p : Path) (b : bool) : Prop :=
  stat_fault env p = None /\ bool_decide (is_Some (fs w !! p)) = b.

(** What [git] would answer to [argv] in [cwd] after the invocations [h]. *)
Definition answer (env : Env) (h : list invocation) (argv : list string) (cwd : Path)
  : run_outcome := git env h (argv, cwd).

(** A command that exits with status zero. *)
Definition succeeds (o : run_outcome) : Prop :=
  match o with Completed _ _ => True | _ => False end.

(** A command that fails: a non-zero exit status, or an [Exception] raised
    in place of a process result. *)
Definition fails (o : run_outcome) : Prop :=
  match o with
  | Completed _ _ => False
  | NonZeroExit _ _ _ => True
  | RunRaises e => isinstance e Exception = true
  end.

(** The world after the program appended the events [evs]. *)
Definition after (w : World) (evs : list event) : World :=
  mkWorld (fs w) (trace w ++ evs).

(** The exception that [check=True] turns a non-zero exit status into. *)
Definition called_process_error (out err : string) : exn :=
  mkExn CalledProcessError "returned non-zero exit status" out err.

(** The record logged when the status query exits with a non-zero status. *)
Definition status_failure_record (p : Path) (e : exn) : event :=
  ELog ERROR [Text "Failed to check git status in "; PathStr p; Text ": "; ExnStr e].

(** The record logged by [_execute_git_command] for a failed command. *)
Definition command_failure_record (command : list string) (p : Path) (e : exn) : event :=
  ELog ERROR
    (([Text ("Git command " +:+ join_spaces command +:+ " failed in ");
       PathStr p; Text ": "; ExnStr e]
      ++ (if nonempty (exn_stdout e)
          then [Text (newline +:+ "STDOUT: " +:+ strip (exn_stdout e))] else []))
     ++ (if nonempty (exn_stderr e)
         then [Text (newline +:+ "STDERR: " +:+ strip (exn_stderr e))] else [])).

(** The record logged when the [try] block of [update_repository] raises. *)
Definition unexpected_error_record (name p : string) (e : exn) : event :=
  ELog ERROR [Text ("Unexpected error updating " +:+ name +:+ ": " +:+ p +:+ " - ");
              ExnStr e].

Definition no_changes_record (name p : string) : event :=
  ELog INFO [Text ("No changes to commit in " +:+ name +:+ ": " +:+ p)].

Definition pushed_record (name p : string) : event :=
  ELog INFO [Text ("Successfully auto-committed and pushed changes in "
                   +:+ name +:+ ": " +:+ p)].

Definition missing_path_record (name p : string) : event :=
  ELog ERROR [Text ("Path for " +:+ name +:+ " does not exist: " +:+ p)].

Definition not_a_repository_record (name p : string) : event :=
  ELog WARNING [Text ("Directory " +:+ name +:+ " is not a git repository: " +:+ p)].

Definition no_paths_record : event :=
  ELog WARNING [Text "No repository paths found"].

Definition decode_error_record (paths_file : Path) (e : exn) : event :=
  ELog ERROR [Text "Error reading "; PathStr paths_file; Text ": "; ExnStr e].

Definition creating_record (paths_file : Path) : event :=
  ELog WARNING [PathStr paths_file; Text " not found. Creating empty paths file."].

(** The final record of a run: ["<successes>/<total>"] inside its sentence. *)
Definition summary_record (successes total : nat) : event :=
  ELog INFO [Text ("Successfully updated " +:+ pretty successes +:+ "/"
                   +:+ pretty total +:+ " repositories")].

(** The per-repository updates of [entries], one after the other, each one
    starting in the world the previous one left: the booleans they return
    and the final world, or [None] as soon as one of them raises. *)
Fixpoint run_entries (env : Env) (entries : list (string * pyvalue)) (w : World)
  : option (list bool * World) :=
  match entries with
  | [] => Some ([], w)
  | (name, path) :: rest =>
      match update_repository env name path w with
      | (Ok b, w') =>
          match run_entries env rest w' with
          | Some (bs, w'') => Some (b :: bs, w'')
          | None => None
          end
      | (Raise _, _) => None
      end
  end.

(** How many of the invocations returned [True]. *)
Fixpoint successes (bs : list bool) : nat :=
  match bs with
  | [] => 0
  | b :: bs' => (if b then 1 else 0) + successes bs'
  end.

(** A computation that leaves every file as it is and appends to the trace
    only events accepted by [ok]. *)
Definition silent {A} (ok : event -> bool) (m : M A) : Prop :=
  forall w, fs (m w).2 = fs w
            /\ exists evs, trace (m w).2 = trace w ++ evs /\ forallb ok evs = true.

(** A computation that raises, when it raises, an exception accepted by [P]. *)
Definition raises_only {A} (P : exn -> Prop) (m : M A) : Prop :=
  forall w e w', m w = (Raise e, w') -> P e.

(** A filesystem whose [stat] always answers, and a [git] whose failures
    to run are all instances of [Exception]. *)
Definition well_behaved (env : Env) : Prop :=
  (forall p, stat_fault env p = None)
  /\ (forall h inv e, git env h inv = RunRaises e -> isinstance e Exception = true).

Definition is_write (e : event) : bool :=
  match e with EWrite _ _ => true | _ => false end.

Definition is_call (e : event) : bool :=
  match e with ECall _ _ => true | _ => false end.

Definition not_write (e : event) : bool := negb (is_write e).

(** The events that are neither a file write nor a call marker. *)
Definition plain (e : event) : bool := negb (is_write e) && negb (is_call e).

(** The exception [json.load] raises on a text that is not JSON. *)
Definition decode_error : exn := mkExn JSONDecodeError "Expecting value" "" "".

(** The exception [paths.items()] raises on a value that is not a [dict]. *)
Definition no_items_error : exn :=
  mkExn AttributeError "object has no attribute 'items'" "" "".

(** The exception [Path(path)] raises on a value that is not a [str]. *)
Definition not_a_path_error : exn :=
  mkExn TypeError "expected str, bytes or os.PathLike object" "" "".

(** ** Sample worlds

    Concrete collaborators on which the statements below are exercised. *)

(** A [git] that plays a script: its n-th invocation gets the n-th answer,
    and a silent success once the script is over. *)
Definition scripted (script : list run_outcome) : list invocation -> invocation -> run_outcome :=
  fun h _ => nth (length h) script (Completed "" "").

Definition no_fault : Path -> option exn := fun _ => None.

Definition dq : string := String (Ascii.ascii_of_nat 34) EmptyString.

(** The document [{"a": "/valid/repo-with-changes", "b": "/missing/path"}]. *)
Definition two_repositories_text : string :=
  "{" +:+ dq +:+ "a" +:+ dq +:+ ": " +:+ dq +:+ "/valid/repo-with-changes" +:+ dq +:+ ", "
  +:+ dq +:+ "b" +:+ dq +:+ ": " +:+ dq +:+ "/missing/path" +:+ dq +:+ "}".

Definition two_repositories : list (string * pyvalue) :=
  [("a", PyStr "/valid/repo-with-changes"); ("b", PyStr "/missing/path")].

(** The document [{"a": "/srv/private/repo", "b": "/valid/repo-with-changes"}]. *)
Definition private_first_text : string :=
  "{" +:+ dq +:+ "a" +:+ dq +:+ ": " +:+ dq +:+ "/srv/private/repo" +:+ dq +:+ ", "
  +:+ dq +:+ "b" +:+ dq +:+ ": " +:+ dq +:+ "/valid/repo-with-changes" +:+ dq +:+ "}".

Definition private_first : list (string * pyvalue) :=
  [("a", PyStr "/srv/private/repo"); ("b", PyStr "/valid/repo-with-changes")].

(** The document [{"a": 1, "b": "/valid/repo-with-changes"}]. *)
Definition number_first_text : string :=
  "{" +:+ dq +:+ "a" +:+ dq +:+ ": 1, "
  +:+ dq +:+ "b" +:+ dq +:+ ": " +:+ dq +:+ "/valid/repo-with-changes" +:+ dq +:+ "}".

Definition number_first : list (string * pyvalue) :=
  [("a", PyInt 1); ("b", PyStr "/valid/repo-with-changes")].

(** The documents the sample decoder knows, with the value [json.loads]
    gives for each. *)
Definition sample_documents : list (string * pyvalue) :=
  [("{}", PyDict []);
   ("[1]", PyList [PyInt 1]);
   (two_repositories_text, PyDict two_repositories);
   (private_first_text, PyDict private_first);
   ("null", PyNone);
   ("[]", PyList []);
   (number_first_text, PyDict number_first)].

(** A decoder that agrees with [json.loads] on the documents above and on
    the text ["invalid json"], which is all the samples read. *)
Definition sample_loads (text : string) : option pyvalue :=
  snd <$> find (fun d => String.eqb (fst d) text) sample_documents.

(** What [json.loads] raises on the texts the sample decoder rejects. *)
Definition sample_error (text : string) : exn := decode_error.

(** [json.dump(v, file, indent=4)] on the only value the program ever
    dumps, the empty mapping. *)
Definition sample_dumps (v : pyvalue) : string :=
  match v with
  | PyDict [] => "{}"
  | _ => EmptyString
  end.

Definition sample_env (script : list run_outcome) : Env :=
  mkEnv (scripted script) no_fault no_fault no_fault (fun _ => None)
        sample_loads sample_error sample_dumps "2024-05-01 09:30".

(** The same, on a machine where [stat] on paths below [/srv/private] is
    refused. *)
Definition permission_denied : exn :=
  mkExn PermissionError "[Errno 13] Permission denied" "" "".

Definition private_stat_fault (p : Path) : option exn :=
  if String.prefix "/srv/private" (path_arg p) then Some permission_denied else None.

Definition guarded_env (script : list run_outcome) : Env :=
  mkEnv (scripted script) private_stat_fault no_fault no_fault (fun _ => None)
        sample_loads sample_error sample_dumps "2024-05-01 09:30".

(** [git] is not installed: [subprocess.run] cannot start it. *)
Definition git_missing : exn :=
  mkExn FileNotFoundError "[Errno 2] No such file or directory: 'git'" "" "".

(** The same as [sample_env], with a configuration file that cannot be opened. *)
Definition unreadable_env (paths_file : Path) : Env :=
  mkEnv (scripted []) no_fault
        (fun p => if decide (p = paths_file) then Some permission_denied else None)
        no_fault (fun _ => None) sample_loads sample_error sample_dumps
        "2024-05-01 09:30".



Definition repo : string := "/valid/repo-with-changes".
Definition config : Path := Path_ "files/repositories.json".

(** A working copy at [repo], a plain directory at [/home/user/notes], and
    no configuration file. *)
Definition sample_fs : gmap Path node :=
  {[ Path_ repo := Dir; Path_ repo </> ".git" := Dir; Path_ "/home/user/notes" := Dir ]}.

Definition sample_world : World := mkWorld sample_fs [].

(** The same with a configuration file holding [text]. *)
Definition configured_world (text : string) : World :=
  mkWorld (<[config := File text]> sample_fs) [].

(** Porcelain output for one modified file. *)
Definition one_modified : string := " M README.md" +:+ newline.

Definition dirty : run_outcome := Completed one_modified "".
Definition clean : run_outcome := Completed "" "".
Definition done_ : run_outcome := Completed "" "".
Definition rejected : run_outcome :=
  NonZeroExit 1 "" "error: failed to push some refs".
Definition not_a_work_tree : run_outcome :=
  NonZeroExit 128 "" "fatal: detected dubious ownership in repository".

(** ** Further vocabulary *)

(** A text made of white space only ([str.isspace] on each character). *)
Fixpoint all_space (s : string) : bool :=
  match s with
  | EmptyString => true
  | String c s' => isspace c && all_space s'
  end.

(** The four commands of an update, in the order of the source, as
    invocations in the directory [cwd]. *)
Definition git_commands (env : Env) (cwd : Path) : list invocation :=
  [(status_argv, cwd); (add_argv, cwd); (commit_argv env, cwd); (push_argv, cwd)].

(** The record logged by [_save_paths] when the file cannot be written. *)
Definition write_error_record (paths_file : Path) (e : exn) : event :=
  ELog ERROR [Text "Error writing to "; PathStr paths_file; Text ": "; ExnStr e].

(** The level of the last record of a list of log records. *)
Definition last_level (logs : list (level * message)) : option level :=
  fst <$> last logs.

(** A value that is a [dict]. *)
Definition is_dict (v : pyvalue) : bool :=
  match v with PyDict _ => true | _ => false end.

(** A value that is a [str]. *)
Definition is_str (v : pyvalue) : bool :=
  match v with PyStr _ => true | _ => false end.

(** The directories named by the string values of a mapping. *)
Fixpoint directories (entries : list (string * pyvalue)) : list Path :=
  match entries with
  | [] => []
  | (_, PyStr p) :: rest => Path_ p :: directories rest
  | _ :: rest => directories rest
  end.

(** White space and nothing else on the output of the status query. *)
Definition blank_output : string := "  " +:+ newline.

(** A command that [update_repository] may run: one of the four, in one of
    the directories [dirs]. *)
Definition allowed (env : Env) (dirs : list Path) (inv : invocation) : Prop :=
  inv.2 ∈ dirs /\ inv.1 ∈ [status_argv; add_argv; commit_argv env; push_argv].


(** An exception that no helper expects: an [Exception] that is not the
    [CalledProcessError] which [_has_changes] and [_execute_git_command]
    handle themselves. *)
Definition unexpected (e : exn) : Prop :=
  isinstance e Exception = true /\ isinstance e CalledProcessError = false.

(** The entries of what [load_paths] gave, when it gave a mapping. *)
Definition loaded_entries (r : result pyvalue) : list (string * pyvalue) :=
  match r with
  | Ok (PyDict d) => d
  | _ => []
  end.

(** A machine on which [stat] refuses a name of more than 255 characters,
    and a path with such a name. *)
Definition name_too_long : exn := mkExn OSError "[Errno 36] File name too long" "" "".

Definition long_name_fault (p : Path) : option exn :=
  if (255 <? String.length (path_arg p))%nat then Some name_too_long else None.

Definition long_name_env (script : list run_outcome) : Env :=
  mkEnv (scripted script) long_name_fault no_fault no_fault (fun _ => None)
        sample_loads sample_error sample_dumps "2024-05-01 09:30".

Definition long_path : string := "/" +:+ String.concat "" (replicate 300 "a").

(** ** Proof tools *)

Ltac run_monad :=
  cbv [mbind M_bind bind mret M_ret ret raise log emit after]; simpl.

(** Decide an [if] whose test is now a constant. *)
Ltac branch := cbv beta iota delta [negb py_not].

(** Two worlds built by the same appends, up to the bracketing of [++]. *)
Ltac same_world :=
  run_monad; rewrite <- ?app_assoc; simpl; reflexivity.

(** ** Projections of a trace *)

Lemma runs_of_app (t u : list event) : runs_of (t ++ u) = runs_of t ++ runs_of u.
Proof. induction t as [|[] t IH]; simpl; [done|..]; by rewrite ?IH. Qed.

Lemma calls_of_app (t u : list event) : calls_of (t ++ u) = calls_of t ++ calls_of u.
Proof. induction t as [|[] t IH]; simpl; [done|..]; by rewrite ?IH. Qed.

Lemma logs_of_app (t u : list event) : logs_of (t ++ u) = logs_of t ++ logs_of u.
Proof. induction t as [|[] t IH]; simpl; [done|..]; by rewrite ?IH. Qed.

Lemma writes_of_app (t u : list event) : writes_of (t ++ u) = writes_of t ++ writes_of u.
Proof. induction t as [|[] t IH]; simpl; [done|..]; by rewrite ?IH. Qed.

Lemma after_after (w : World) (t u : list event) : after (after w t) u = after w (t ++ u).
Proof. unfold after; simpl. by rewrite <- app_assoc. Qed.

Lemma after_nil (w : World) : after w [] = w.
Proof. destruct w; unfold after; simpl. by rewrite app_nil_r. Qed.

Lemma runs_of_after (w : World) (evs : list event) :
  runs_of (trace (after w evs)) = runs_of (trace w) ++ runs_of evs.
Proof. apply runs_of_app. Qed.

Lemma nonempty_true (s : string) : s <> "" -> nonempty s = true.
Proof. by destruct s. Qed.

(** ** Equations of the primitive operations *)

Lemma emit_eq (e : event) (w : World) : emit e w = (Ok tt, after w [e]).
Proof. reflexivity. Qed.

Lemma log_eq (lvl : level) (msg : message) (w : World) :
  log lvl msg w = (Ok tt, after w [ELog lvl msg]).
Proof. reflexivity. Qed.

Lemma bind_eq {A B} (m : M A) (k : A -> M B) (w : World) :
  (m ≫= k) w = match m w with
               | (Ok a, w') => k a w'
               | (Raise e, w') => (Raise e, w')
               end.
Proof. reflexivity. Qed.

Lemma exists_eq (env : Env) (w : World) (p : Path) (b : bool) :
  exists_is env w p b -> exists_ env p w = (Ok b, w).
Proof. intros [Hs Hb]. unfold exists_. by rewrite Hs, Hb. Qed.

Lemma exists_after (env : Env) (w : World) (evs : list event) (p : Path) (b : bool) :
  exists_is env w p b -> exists_is env (after w evs) p b.
Proof. done. Qed.

Lemma subprocess_run_eq (env : Env) (argv : list string) (cwd : Path) (w : World) :
  subprocess_run env argv cwd w =
    match answer env (runs_of (trace w)) argv cwd with
    | Completed out _ => (Ok out, after w [ERun argv cwd])
    | NonZeroExit rc out err => (Raise (called_process_error out err), after w [ERun argv cwd])
    | RunRaises e => (Raise e, after w [ERun argv cwd])
    end.
Proof. reflexivity. Qed.

(** ** Equations of the helper methods *)

Lemma has_changes_eq (env : Env) (p : Path) (w : World) :
  _has_changes env p w =
    match answer env (runs_of (trace w)) status_argv p with
    | Completed out _ =>
        (Ok (Some (nonempty (strip out))), after w [ERun status_argv p])
    | NonZeroExit rc out err =>
        (Ok None, after w [ERun status_argv p;
                           status_failure_record p (called_process_error out err)])
    | RunRaises e =>
        if isinstance e CalledProcessError
        then (Ok None, after w [ERun status_argv p; status_failure_record p e])
        else (Raise e, after w [ERun status_argv p])
    end.
Proof.
  unfold _has_changes, try_except. rewrite bind_eq, subprocess_run_eq.
  fold status_argv.
  destruct (answer env (runs_of (trace w)) status_argv p) as [out err|rc out err|e].
  - done.
  - same_world.
  - destruct (isinstance e CalledProcessError); [same_world|done].
Qed.

Lemma execute_git_command_eq (env : Env) (command : list string) (p : Path) (w : World) :
  _execute_git_command env command p w =
    match answer env (runs_of (trace w)) command p with
    | Completed _ _ => (Ok true, after w [ERun command p])
    | NonZeroExit rc out err =>
        (Ok false, after w [ERun command p;
                            command_failure_record command p (called_process_error out err)])
    | RunRaises e =>
        if isinstance e CalledProcessError
        then (Ok false, after w [ERun command p; command_failure_record command p e])
        else (Raise e, after w [ERun command p])
    end.
Proof.
  unfold _execute_git_command, try_except. rewrite bind_eq, subprocess_run_eq.
  destruct (answer env (runs_of (trace w)) command p) as [out err|rc out err|e].
  - done.
  - unfold command_failure_record. destruct out, err; same_world.
  - destruct (isinstance e CalledProcessError); [|done].
    unfold command_failure_record.
    destruct (exn_stdout e), (exn_stderr e); same_world.
Qed.




(** Past the two checks, [update_repository] is its [try] statement. *)
Lemma update_repository_checked (env : Env) (name p : string) (w : World) :
  exists_is env w (Path_ p) true ->
  exists_is env w (Path_ p </> ".git") true ->
  update_repository env name (PyStr p) w =
    match update_steps env name p (Path_ p) (after w [ECall name (PyStr p)]) with
    | (Ok b, w') => (Ok b, w')
    | (Raise e, w') =>
        if isinstance e Exception
        then (Ok false, after w' [unexpected_error_record name p e])
        else (Raise e, w')
    end.
Proof.
  intros Hp Hg. unfold update_repository.
  rewrite bind_eq, emit_eq. cbv beta iota.
  rewrite bind_eq, (exists_eq _ _ _ _ (exists_after _ _ _ _ _ Hp)).
  branch.
  rewrite bind_eq, (exists_eq _ _ _ _ (exists_after _ _ _ _ _ Hg)).
  branch. unfold try_except.
  destruct (update_steps _ _ _ _ _) as [[b|e] w']; [done|].
  destruct (isinstance e Exception); [|done]. same_world.
Qed.

(** The [try] block when the status query reports changes. *)
Lemma update_steps_changes (env : Env) (name p : string) (cwd : Path) (w : World)
    (out err : string) :
  answer env (runs_of (trace w)) status_argv cwd = Completed out err ->
  strip out <> "" ->
  update_steps env name p cwd w =
    (staged ← _execute_git_command env add_argv cwd;
     if negb staged then mret false
     else
       committed ← _execute_git_command env (commit_argv env) cwd;
       if negb committed then mret false
       else
         pushed ← _execute_git_command env push_argv cwd;
         if negb pushed then mret false
         else
           log INFO [Text ("Successfully auto-committed and pushed changes in "
                           +:+ name +:+ ": " +:+ p)];;
           mret true) (after w [ERun status_argv cwd]).
Proof.
  intros Hst Hne. unfold update_steps at 1.
  rewrite bind_eq, has_changes_eq, Hst, (nonempty_true _ Hne). done.
Qed.

(** ** The library operations on small inputs *)

Example strip_porcelain_line : strip (" M README.md" +:+ newline) = "M README.md".
Proof. reflexivity. Qed.

Example strip_blank_output : strip ("  " +:+ newline) = "".
Proof. reflexivity. Qed.

Example called_process_error_is_exception : issubclass CalledProcessError Exception = true.
Proof. reflexivity. Qed.

Example keyboard_interrupt_is_no_exception : issubclass KeyboardInterrupt Exception = false.
Proof. reflexivity. Qed.

Example permission_error_is_no_decode_error :
  issubclass PermissionError OSError = true
  /\ issubclass PermissionError JSONDecodeError = false.
Proof. split; reflexivity. Qed.

Example truthy_values :
  truthy (PyDict []) = false /\ truthy PyNone = false /\ truthy (PyList [PyInt 1]) = true
  /\ truthy (PyDict two_repositories) = true.
Proof. repeat split. Qed.

Example summary_one_of_two :
  summary_record 1 2 = ELog INFO [Text "Successfully updated 1/2 repositories"].
Proof. reflexivity. Qed.

Example commit_command :
  commit_argv (sample_env [])
  = ["git"; "commit"; "-m"; "Auto-commit: Updated files - 2024-05-01 09:30"].
Proof. reflexivity. Qed.

(** ** The status query *)

(** C8: [_has_changes] returns [True] exactly when the status query exits
    with status zero and its stripped output is not empty; it returns [False]
    when the query exits with status zero and the stripped output is empty;
    and when the query exits with a non-zero status it returns [None], which
    is not [False]. *)
Theorem has_changes_tristate (env : Env) (p : Path) (w : World) :
  let query := answer env (runs_of (trace w)) status_argv p in
  ((_has_changes env p w).1 = Ok (Some true)
     <-> exists out err, query = Completed out err /\ strip out <> "")
  /\ (forall out err, query = Completed out err -> strip out = "" ->
        (_has_changes env p w).1 = Ok (Some false))
  /\ (forall rc out err, query = NonZeroExit rc out err ->
        (_has_changes env p w).1 = Ok None
        /\ (_has_changes env p w).1 <> Ok (Some false)).
Proof.
  intros query. rewrite has_changes_eq. fold query. repeat split.
  - destruct query as [out err|rc out err|e]; simpl.
    + intros [= H]. exists out, err. split; [done|].
      intros E. by rewrite E in H.
    + done.
    + by destruct (isinstance e CalledProcessError).
  - intros (out & err & -> & Hne). simpl. by rewrite nonempty_true.
  - intros out err -> E. simpl. by rewrite E.
  - by rewrite H.
  - by rewrite H.
Qed.

(** On a scripted [git]: a modified file gives [True], silence gives
    [False], exit status 128 gives [None]. *)
Lemma has_changes_tristate_witness :
  (_has_changes (sample_env [dirty]) (Path_ repo) sample_world).1 = Ok (Some true)
  /\ (_has_changes (sample_env [clean]) (Path_ repo) sample_world).1 = Ok (Some false)
  /\ (_has_changes (sample_env [not_a_work_tree]) (Path_ repo) sample_world).1 = Ok None.
Proof.
  split; [|split].
  - apply (has_changes_tristate (sample_env [dirty]) (Path_ repo) sample_world).
    exists one_modified, "". split; [reflexivity | by vm_compute].
  - by apply (proj1 (proj2 (has_changes_tristate (sample_env [clean]) (Path_ repo)
                              sample_world)) "" "").
  - by apply (proj2 (proj2 (has_changes_tristate (sample_env [not_a_work_tree])
                              (Path_ repo) sample_world))
                     128%Z "" "fatal: detected dubious ownership in repository").
Defined.

(** ** One repository *)

(** The two early returns. *)
Lemma update_repository_missing (env : Env) (name p : string) (w : World) :
  exists_is env w (Path_ p) false ->
  update_repository env name (PyStr p) w
    = (Ok false, after w [ECall name (PyStr p); missing_path_record name p]).
Proof.
  intros Hp. unfold update_repository. rewrite bind_eq, emit_eq. cbv beta iota.
  rewrite bind_eq, (exists_eq _ _ _ _ (exists_after _ _ _ _ _ Hp)).
  branch. same_world.
Qed.

Lemma update_repository_no_git (env : Env) (name p : string) (w : World) :
  exists_is env w (Path_ p) true ->
  exists_is env w (Path_ p </> ".git") false ->
  update_repository env name (PyStr p) w
    = (Ok false, after w [ECall name (PyStr p); not_a_repository_record name p]).
Proof.
  intros Hp Hg. unfold update_repository. rewrite bind_eq, emit_eq. cbv beta iota.
  rewrite bind_eq, (exists_eq _ _ _ _ (exists_after _ _ _ _ _ Hp)).
  branch.
  rewrite bind_eq, (exists_eq _ _ _ _ (exists_after _ _ _ _ _ Hg)).
  branch. same_world.
Qed.

(** An exception raised by a check leaves [update_repository] and the loop. *)
Lemma update_repository_stat_fault (env : Env) (name p : string) (w : World) (e : exn) :
  stat_fault env (Path_ p) = Some e ->
  update_repository env name (PyStr p) w = (Raise e, after w [ECall name (PyStr p)]).
Proof.
  intros Hs. unfold update_repository. rewrite bind_eq, emit_eq. cbv beta iota.
  rewrite bind_eq. unfold exists_ at 1. by rewrite Hs.
Qed.

Lemma update_repository_git_stat_fault (env : Env) (name p : string) (w : World) (e : exn) :
  exists_is env w (Path_ p) true ->
  stat_fault env (Path_ p </> ".git") = Some e ->
  update_repository env name (PyStr p) w = (Raise e, after w [ECall name (PyStr p)]).
Proof.
  intros Hp Hs. unfold update_repository. rewrite bind_eq, emit_eq. cbv beta iota.
  rewrite bind_eq, (exists_eq _ _ _ _ (exists_after _ _ _ _ _ Hp)). branch.
  rewrite bind_eq. unfold exists_ at 1. by rewrite Hs.
Qed.

(** C7, as the code has it: when the path does not exist,
    [update_repository] starts no subprocess whatever the existence check
    does, and returns [False] whenever that check answers; when the path
    exists but holds no [.git], it runs neither the status query nor stage,
    commit or push, and returns [False] whenever the two checks answer. *)
Theorem update_repository_rejects_without_git (env : Env) (name p : string) (w : World) :
  let r := update_repository env name (PyStr p) w in
  (fs w !! Path_ p = None ->
     runs_of (trace r.2) = runs_of (trace w)
     /\ (stat_fault env (Path_ p) = None ->
         r = (Ok false, after w [ECall name (PyStr p); missing_path_record name p])))
  /\ (is_Some (fs w !! Path_ p) ->
      fs w !! (Path_ p </> ".git") = None ->
        runs_of (trace r.2) = runs_of (trace w)
        /\ (stat_fault env (Path_ p) = None ->
            stat_fault env (Path_ p </> ".git") = None ->
            r = (Ok false,
                 after w [ECall name (PyStr p); not_a_repository_record name p]))).
Proof.
  intros r. subst r. split.
  - intros Hnone.
    assert (bool_decide (is_Some (fs w !! Path_ p)) = false) as Hb
      by (rewrite Hnone; apply bool_decide_eq_false; by intros [? ?]).
    destruct (stat_fault env (Path_ p)) as [e|] eqn:Hs.
    + rewrite (update_repository_stat_fault _ _ _ _ _ Hs). split; [|done].
      simpl. rewrite runs_of_app. simpl. by rewrite app_nil_r.
    + rewrite update_repository_missing by by split.
      split; [|done]. simpl. rewrite runs_of_app. simpl. by rewrite app_nil_r.
  - intros Hsome Hnone.
    assert (bool_decide (is_Some (fs w !! Path_ p)) = true) as Hb
      by by apply bool_decide_eq_true.
    assert (bool_decide (is_Some (fs w !! (Path_ p </> ".git"))) = false) as Hg
      by (rewrite Hnone; apply bool_decide_eq_false; by intros [? ?]).
    destruct (stat_fault env (Path_ p)) as [e|] eqn:Hs.
    { rewrite (update_repository_stat_fault _ _ _ _ _ Hs). split; [|done].
      simpl. rewrite runs_of_app. simpl. by rewrite app_nil_r. }
    destruct (stat_fault env (Path_ p </> ".git")) as [e|] eqn:Hs2.
    { rewrite (update_repository_git_stat_fault env name p w e) by by try split.
      split; [|done]. simpl. rewrite runs_of_app. simpl. by rewrite app_nil_r. }
    rewrite update_repository_no_git by by split.
    split; [|done]. simpl. rewrite runs_of_app. simpl. by rewrite app_nil_r.
Qed.

(** [/missing/path] is absent and [/home/user/notes] has no [.git]. *)
Lemma update_repository_rejects_without_git_witness :
  (let r := update_repository (sample_env [dirty]) "b" (PyStr "/missing/path")
              sample_world in
   r.1 = Ok false /\ runs_of (trace r.2) = [])
  /\ (let r := update_repository (sample_env [dirty]) "notes" (PyStr "/home/user/notes")
                 sample_world in
      r.1 = Ok false /\ runs_of (trace r.2) = []).
Proof.
  split.
  - destruct (proj1 (update_repository_rejects_without_git
                       (sample_env [dirty]) "b" "/missing/path" sample_world))
      as [Hruns Hres].
    + by vm_compute.
    + cbv zeta. rewrite (Hres eq_refl). split; [reflexivity | by vm_compute].
  - destruct (proj2 (update_repository_rejects_without_git
                       (sample_env [dirty]) "notes" "/home/user/notes" sample_world))
      as [Hruns Hres].
    + vm_compute. by eexists.
    + by vm_compute.
    + cbv zeta. rewrite (Hres eq_refl eq_refl). split; [reflexivity | by vm_compute].
Defined.

(** C7, as stated, fails on a path that does not exist and whose name is
    longer than the filesystem accepts: [Path.exists] raises the [OSError]
    of [stat], and [update_repository] raises it instead of returning
    [False]. *)
Lemma missing_path_with_unanswered_check :
  fs sample_world !! Path_ long_path = None
  /\ update_repository (long_name_env []) "a" (PyStr long_path) sample_world
     = (Raise name_too_long, after sample_world [ECall "a" (PyStr long_path)]).
Proof. split; by vm_compute. Qed.

(** C6: a repository that passes both checks and whose status query exits
    with status zero and nothing but white space on its output makes
    [update_repository] return [True]; the status query is the only
    subprocess, so neither stage nor commit nor push is run. *)
Theorem update_repository_no_changes (env : Env) (name p : string) (w : World)
    (out err : string) :
  exists_is env w (Path_ p) true ->
  exists_is env w (Path_ p </> ".git") true ->
  answer env (runs_of (trace w)) status_argv (Path_ p) = Completed out err ->
  strip out = "" ->
  update_repository env name (PyStr p) w
    = (Ok true, after w [ECall name (PyStr p); ERun status_argv (Path_ p);
                         no_changes_record name p])
  /\ runs_of (trace (update_repository env name (PyStr p) w).2)
     = runs_of (trace w) ++ [(status_argv, Path_ p)].
Proof.
  intros Hp Hg Hst Hout.
  assert (update_repository env name (PyStr p) w
          = (Ok true, after w [ECall name (PyStr p); ERun status_argv (Path_ p);
                               no_changes_record name p])) as ->.
  { rewrite update_repository_checked by done.
    unfold update_steps. rewrite bind_eq, has_changes_eq.
    rewrite runs_of_after. simpl runs_of. rewrite app_nil_r, Hst, Hout.
    simpl nonempty. branch. same_world. }
  split; [done|]. simpl. by rewrite runs_of_app.
Qed.

(** A clean working copy at [repo]. *)
Lemma update_repository_no_changes_witness :
  update_repository (sample_env [clean]) "a" (PyStr repo) sample_world
    = (Ok true, after sample_world [ECall "a" (PyStr repo); ERun status_argv (Path_ repo);
                                    no_changes_record "a" repo]).
Proof.
  apply (update_repository_no_changes (sample_env [clean]) "a" repo sample_world "" "").
  - split; [reflexivity | by vm_compute].
  - split; [reflexivity | by vm_compute].
  - reflexivity.
  - reflexivity.
Defined.

(** C1 (what the code does where the specification asks for a failure): when
    the status query of a repository that passed both checks exits with a
    non-zero status, [_has_changes] logs the error and returns [None],
    [not None] holds, and [update_repository] logs "No changes to commit" and
    returns [True]. *)
Theorem update_repository_status_failure (env : Env) (name p : string) (w : World)
    (rc : Z) (out err : string) :
  exists_is env w (Path_ p) true ->
  exists_is env w (Path_ p </> ".git") true ->
  answer env (runs_of (trace w)) status_argv (Path_ p) = NonZeroExit rc out err ->
  update_repository env name (PyStr p) w
    = (Ok true,
       after w [ECall name (PyStr p); ERun status_argv (Path_ p);
                status_failure_record (Path_ p) (called_process_error out err);
                no_changes_record name p]).
Proof.
  intros Hp Hg Hst.
  rewrite update_repository_checked by done.
  unfold update_steps. rewrite bind_eq, has_changes_eq.
  rewrite runs_of_after. simpl runs_of. rewrite app_nil_r, Hst.
  branch. same_world.
Qed.

(** [git status] refusing to work in [repo] (exit status 128): the
    repository is reported as updated. *)
Lemma update_repository_status_failure_witness :
  (update_repository (sample_env [not_a_work_tree]) "a" (PyStr repo) sample_world).1
    = Ok true
  /\ In (INFO, [Text "No changes to commit in a: /valid/repo-with-changes"])
        (logs_of (trace (update_repository (sample_env [not_a_work_tree]) "a" (PyStr repo)
                           sample_world).2)).
Proof.
  rewrite (update_repository_status_failure (sample_env [not_a_work_tree]) "a" repo
             sample_world 128 "" "fatal: detected dubious ownership in repository").
  - split; [reflexivity|]. vm_compute. right. left. reflexivity.
  - split; [reflexivity | by vm_compute].
  - split; [reflexivity | by vm_compute].
  - reflexivity.
Defined.

(** A command of the sequence, by what [git] answers to it. *)
Lemma execute_succeeds (env : Env) (command : list string) (cwd : Path) (w : World) :
  succeeds (answer env (runs_of (trace w)) command cwd) ->
  _execute_git_command env command cwd w = (Ok true, after w [ERun command cwd]).
Proof.
  intros H. rewrite execute_git_command_eq.
  by destruct (answer env (runs_of (trace w)) command cwd).
Qed.

Lemma execute_fails (env : Env) (command : list string) (cwd : Path) (w : World) :
  fails (answer env (runs_of (trace w)) command cwd) ->
  (exists e,
      _execute_git_command env command cwd w
        = (Ok false, after w [ERun command cwd; command_failure_record command cwd e]))
  \/ (exists e, isinstance e Exception = true
                /\ _execute_git_command env command cwd w
                   = (Raise e, after w [ERun command cwd])).
Proof.
  intros H. rewrite execute_git_command_eq.
  destruct (answer env (runs_of (trace w)) command cwd) as [| |e]; [done|by eauto|].
  destruct (isinstance e CalledProcessError); by eauto.
Qed.

(** Reading the subprocess history off a world built with [after]. *)
Ltac count_runs :=
  unfold command_failure_record, unexpected_error_record;
  simpl; rewrite ?runs_of_app; simpl; rewrite ?app_nil_r, <- ?app_assoc; simpl;
  reflexivity.

(** C5: for a repository that passed both checks and whose status query
    reports changes, the commands are run in the order stage, commit, push
    after the status query.  A failing stage is the last subprocess, a
    failing commit is the last subprocess, and in both cases, as when push
    fails, the result is [False]; when the three succeed, they are the only
    three commands run and the result is [True]. *)
Theorem update_repository_stage_commit_push (env : Env) (name p : string) (w : World)
    (out err : string) :
  exists_is env w (Path_ p) true ->
  exists_is env w (Path_ p </> ".git") true ->
  answer env (runs_of (trace w)) status_argv (Path_ p) = Completed out err ->
  strip out <> "" ->
  let cwd := Path_ p in
  let h1 := runs_of (trace w) ++ [(status_argv, cwd)] in
  let h2 := h1 ++ [(add_argv, cwd)] in
  let h3 := h2 ++ [(commit_argv env, cwd)] in
  let h4 := h3 ++ [(push_argv, cwd)] in
  let stage := answer env h1 add_argv cwd in
  let commit := answer env h2 (commit_argv env) cwd in
  let push := answer env h3 push_argv cwd in
  let run := update_repository env name (PyStr p) w in
  (fails stage -> run.1 = Ok false /\ runs_of (trace run.2) = h2)
  /\ (succeeds stage -> fails commit ->
        run.1 = Ok false /\ runs_of (trace run.2) = h3)
  /\ (succeeds stage -> succeeds commit -> fails push ->
        run.1 = Ok false /\ runs_of (trace run.2) = h4)
  /\ (succeeds stage -> succeeds commit -> succeeds push ->
        run.1 = Ok true /\ runs_of (trace run.2) = h4).
Proof.
  intros Hp Hg Hst Hne cwd h1 h2 h3 h4 stage commit push run.
  subst run stage commit push. rewrite update_repository_checked by done.
  rewrite (update_steps_changes env name p cwd _ out err);
    [| by rewrite runs_of_after; simpl runs_of; rewrite app_nil_r | done].
  rewrite after_after. simpl app.
  set (w1 := after w [ECall name (PyStr p); ERun status_argv cwd]).
  set (w2 := after w1 [ERun add_argv cwd]).
  set (w3 := after w2 [ERun (commit_argv env) cwd]).
  assert (runs_of (trace w1) = h1) as E1 by count_runs.
  assert (runs_of (trace w2) = h2) as E2 by (subst h2; rewrite <- E1; count_runs).
  assert (runs_of (trace w3) = h3) as E3 by (subst h3; rewrite <- E2; count_runs).
  rewrite bind_eq. fold cwd in E1.
  split; [|split; [|split]].
  - intros F. rewrite <- E1 in F.
    destruct (execute_fails _ _ _ _ F) as [[e ->]|(e & He & ->)].
    + branch. split; [done|]. simpl. subst h2. rewrite <- E1. count_runs.
    + rewrite He. split; [done|]. simpl. subst h2. rewrite <- E1. count_runs.
  - intros S F. rewrite <- E1 in S. rewrite (execute_succeeds _ _ _ _ S).
    branch. fold w2. rewrite bind_eq. rewrite <- E2 in F.
    destruct (execute_fails _ _ _ _ F) as [[e ->]|(e & He & ->)].
    + branch. split; [done|]. simpl. subst h3. rewrite <- E2. count_runs.
    + rewrite He. split; [done|]. simpl. subst h3. rewrite <- E2. count_runs.
  - intros S1 S2 F. rewrite <- E1 in S1. rewrite (execute_succeeds _ _ _ _ S1).
    branch. fold w2. rewrite bind_eq. rewrite <- E2 in S2.
    rewrite (execute_succeeds _ _ _ _ S2). branch. fold w3. rewrite bind_eq.
    rewrite <- E3 in F.
    destruct (execute_fails _ _ _ _ F) as [[e ->]|(e & He & ->)].
    + branch. split; [done|]. simpl. subst h4. rewrite <- E3. count_runs.
    + rewrite He. split; [done|]. simpl. subst h4. rewrite <- E3. count_runs.
  - intros S1 S2 S3. rewrite <- E1 in S1. rewrite (execute_succeeds _ _ _ _ S1).
    branch. fold w2. rewrite bind_eq. rewrite <- E2 in S2.
    rewrite (execute_succeeds _ _ _ _ S2). branch. fold w3. rewrite bind_eq.
    rewrite <- E3 in S3. rewrite (execute_succeeds _ _ _ _ S3).
    branch. split; [done|]. simpl. subst h4. rewrite <- E3. count_runs.
Qed.

(** Stage rejected; commit rejected; push rejected; and the three accepted. *)
Lemma update_repository_stage_commit_push_witness :
  let cwd := Path_ repo in
  let run script := update_repository (sample_env script) "a" (PyStr repo) sample_world in
  ((run [dirty; rejected]).1 = Ok false
   /\ runs_of (trace (run [dirty; rejected]).2) = [(status_argv, cwd); (add_argv, cwd)])
  /\ ((run [dirty; done_; rejected]).1 = Ok false
      /\ runs_of (trace (run [dirty; done_; rejected]).2)
         = [(status_argv, cwd); (add_argv, cwd); (commit_argv (sample_env []), cwd)])
  /\ ((run [dirty; done_; done_; rejected]).1 = Ok false
      /\ runs_of (trace (run [dirty; done_; done_; rejected]).2)
         = [(status_argv, cwd); (add_argv, cwd); (commit_argv (sample_env []), cwd);
            (push_argv, cwd)])
  /\ ((run [dirty; done_; done_; done_]).1 = Ok true
      /\ runs_of (trace (run [dirty; done_; done_; done_]).2)
         = [(status_argv, cwd); (add_argv, cwd); (commit_argv (sample_env []), cwd);
            (push_argv, cwd)]).
Proof.
  intros cwd run.
  assert (forall script, exists_is (sample_env script) sample_world (Path_ repo) true) as Hp
    by (intros; split; [reflexivity | by vm_compute]).
  assert (forall script,
            exists_is (sample_env script) sample_world (Path_ repo </> ".git") true) as Hg
    by (intros; split; [reflexivity | by vm_compute]).
  assert (strip one_modified <> "") as Hne by by vm_compute.
  split; [|split; [|split]].
  - apply (update_repository_stage_commit_push (sample_env [dirty; rejected]) "a" repo
             sample_world one_modified "" (Hp _) (Hg _) eq_refl Hne).
    exact I.
  - apply (update_repository_stage_commit_push (sample_env [dirty; done_; rejected]) "a" repo
             sample_world one_modified "" (Hp _) (Hg _) eq_refl Hne);
      exact I.
  - apply (update_repository_stage_commit_push (sample_env [dirty; done_; done_; rejected])
             "a" repo sample_world one_modified "" (Hp _) (Hg _) eq_refl Hne);
      exact I.
  - apply (update_repository_stage_commit_push (sample_env [dirty; done_; done_; done_])
             "a" repo sample_world one_modified "" (Hp _) (Hg _) eq_refl Hne);
      exact I.
Defined.

(** ** What a computation may touch *)

Lemma silent_ret {A} (ok : event -> bool) (a : A) : silent ok (mret a).
Proof. intros w. split; [done|]. exists []. by rewrite app_nil_r. Qed.

Lemma silent_raise {A} (ok : event -> bool) (e : exn) : silent ok (raise (A := A) e).
Proof. intros w. split; [done|]. exists []. by rewrite app_nil_r. Qed.

Lemma silent_emit (ok : event -> bool) (e : event) : ok e = true -> silent ok (emit e).
Proof. intros H w. split; [done|]. exists [e]. simpl. by rewrite H. Qed.

Lemma silent_log (ok : event -> bool) (lvl : level) (msg : message) :
  ok (ELog lvl msg) = true -> silent ok (log lvl msg).
Proof. apply silent_emit. Qed.

Lemma silent_bind {A B} (ok : event -> bool) (m : M A) (k : A -> M B) :
  silent ok m -> (forall a, silent ok (k a)) -> silent ok (m ≫= k).
Proof.
  intros Hm Hk w. rewrite bind_eq.
  destruct (Hm w) as (Hfs & evs & Htr & Hok).
  destruct (m w) as [[a|e] w1]; simpl in *.
  - destruct (Hk a w1) as (Hfs' & evs' & Htr' & Hok').
    split; [congruence|]. exists (evs ++ evs').
    rewrite Htr', Htr, forallb_app, Hok, Hok'. by rewrite <- app_assoc.
  - split; [done|]. by exists evs.
Qed.

Lemma silent_try {A} (ok : event -> bool) (body : M A) (cls : exn_class)
    (handler : exn -> M A) :
  silent ok body -> (forall e, silent ok (handler e)) -> silent ok (try_except body cls handler).
Proof.
  intros Hm Hk w. unfold try_except.
  destruct (Hm w) as (Hfs & evs & Htr & Hok).
  destruct (body w) as [[a|e] w1]; simpl in *.
  - split; [done|]. by exists evs.
  - destruct (isinstance e cls); simpl.
    + destruct (Hk e w1) as (Hfs' & evs' & Htr' & Hok').
      split; [congruence|]. exists (evs ++ evs').
      rewrite Htr', Htr, forallb_app, Hok, Hok'. by rewrite <- app_assoc.
    + split; [done|]. by exists evs.
Qed.

Lemma silent_exists (ok : event -> bool) (env : Env) (p : Path) : silent ok (exists_ env p).
Proof.
  intros w. unfold exists_. destruct (stat_fault env p); simpl;
    (split; [done|]; exists []; by rewrite app_nil_r).
Qed.

Lemma silent_read_text (ok : event -> bool) (env : Env) (p : Path) :
  silent ok (read_text env p).
Proof.
  intros w. unfold read_text.
  destruct (read_fault env p); [|destruct (fs w !! p) as [[]|]]; simpl;
    (split; [done|]; exists []; by rewrite app_nil_r).
Qed.

Lemma silent_json_load (ok : event -> bool) (env : Env) (text : string) :
  silent ok (json_load env text).
Proof.
  unfold json_load. destruct (json_loads env text);
    [apply silent_ret | apply silent_raise].
Qed.

Lemma silent_subprocess_run (ok : event -> bool) (env : Env) (argv : list string)
    (cwd : Path) :
  ok (ERun argv cwd) = true -> silent ok (subprocess_run env argv cwd).
Proof.
  intros H w. rewrite subprocess_run_eq.
  destruct (answer _ _ _ _); simpl; (split; [done|]; exists [ERun argv cwd]; simpl;
                                     by rewrite H).
Qed.

Lemma silent_has_changes (env : Env) (p : Path) : silent plain (_has_changes env p).
Proof.
  unfold _has_changes. apply silent_try.
  - apply silent_bind; [by apply silent_subprocess_run|]. intros. apply silent_ret.
  - intros e. apply silent_bind; [by apply silent_log|]. intros. apply silent_ret.
Qed.

Lemma silent_execute_git_command (env : Env) (command : list string) (p : Path) :
  silent plain (_execute_git_command env command p).
Proof.
  unfold _execute_git_command. apply silent_try.
  - apply silent_bind; [by apply silent_subprocess_run|]. intros. apply silent_ret.
  - intros e. apply silent_bind; [by apply silent_log|]. intros. apply silent_ret.
Qed.

Lemma silent_update_steps (env : Env) (name p : string) (cwd : Path) :
  silent plain (update_steps env name p cwd).
Proof.
  unfold update_steps.
  apply silent_bind; [apply silent_has_changes|]. intros changes.
  destruct (py_not changes).
  { apply silent_bind; [by apply silent_log|]. intros. apply silent_ret. }
  apply silent_bind; [apply silent_execute_git_command|]. intros [|]; simpl;
    [|apply silent_ret].
  apply silent_bind; [apply silent_execute_git_command|]. intros [|]; simpl;
    [|apply silent_ret].
  apply silent_bind; [apply silent_execute_git_command|]. intros [|]; simpl;
    [|apply silent_ret].
  apply silent_bind; [by apply silent_log|]. intros. apply silent_ret.
Qed.

(** After its call marker, [update_repository] writes no file and records
    no further call. *)
Lemma update_repository_frame (env : Env) (name : string) (path : pyvalue) (w : World) :
  fs (update_repository env name path w).2 = fs w
  /\ exists evs, trace (update_repository env name path w).2
                 = trace w ++ ECall name path :: evs
                 /\ forallb plain evs = true.
Proof.
  unfold update_repository. rewrite bind_eq, emit_eq. cbv beta iota.
  match goal with
  | |- context [fs (?m (after w [ECall name path])).2] => assert (silent plain m) as Hs
  end.
  { destruct path; try apply silent_raise. cbv zeta.
    apply silent_bind; [apply silent_exists|]. intros [|]; simpl.
    2:{ apply silent_bind; [by apply silent_log|]. intros. apply silent_ret. }
    apply silent_bind; [apply silent_exists|]. intros [|]; simpl.
    2:{ apply silent_bind; [by apply silent_log|]. intros. apply silent_ret. }
    apply silent_try; [apply silent_update_steps|].
    intros e. apply silent_bind; [by apply silent_log|]. intros. apply silent_ret. }
  destruct (Hs (after w [ECall name path])) as (Hfs & evs & Htr & Hok).
  split; [done|]. exists evs. split; [|done].
  rewrite Htr. simpl. by rewrite <- app_assoc.
Qed.

Lemma silent_weaken {A} (ok ok' : event -> bool) (m : M A) :
  (forall e, ok e = true -> ok' e = true) -> silent ok m -> silent ok' m.
Proof.
  intros Hw Hm w. destruct (Hm w) as (Hfs & evs & Htr & Hok).
  split; [done|]. exists evs. split; [done|].
  apply forallb_forall. intros e He. apply Hw.
  by apply (proj1 (forallb_forall ok evs) Hok).
Qed.

Lemma plain_not_write (e : event) : plain e = true -> not_write e = true.
Proof. unfold plain, not_write. by destruct (is_write e). Qed.

Lemma not_write_writes (evs : list event) :
  forallb not_write evs = true -> writes_of evs = [].
Proof. induction evs as [|[] evs IH]; simpl; try done; by intros ?%IH. Qed.

Lemma plain_calls (evs : list event) : forallb plain evs = true -> calls_of evs = [].
Proof. induction evs as [|[] evs IH]; simpl; try done; by intros ?%IH. Qed.

Lemma silent_update_repository (env : Env) (name : string) (path : pyvalue) :
  silent not_write (update_repository env name path).
Proof.
  intros w. destruct (update_repository_frame env name path w) as (Hfs & evs & Htr & Hok).
  split; [done|]. exists (ECall name path :: evs). split; [done|]. simpl.
  apply forallb_forall. intros e He. apply plain_not_write.
  by apply (proj1 (forallb_forall plain evs) Hok).
Qed.

Lemma silent_update_loop (env : Env) (entries : list (string * pyvalue)) :
  forall success_count, silent not_write (update_loop env entries success_count).
Proof.
  induction entries as [|[name path] rest IH]; intros c; simpl.
  - apply silent_ret.
  - apply silent_bind; [apply silent_update_repository|]. intros b. apply IH.
Qed.

Lemma silent_items (ok : event -> bool) (paths : pyvalue) : silent ok (items paths).
Proof. destruct paths; simpl; first [apply silent_ret | apply silent_raise]. Qed.

(** ** The configuration file *)

Lemma read_text_world (env : Env) (p : Path) (w : World) : (read_text env p w).2 = w.
Proof.
  unfold read_text. destruct (read_fault env p); [done|].
  by destruct (fs w !! p) as [[]|].
Qed.

Lemma oserror_not_decode (e : exn) :
  isinstance e OSError = true -> isinstance e JSONDecodeError = false.
Proof. destruct e as [c ? ? ?]. unfold isinstance; simpl. by destruct c. Qed.

(** [load_paths] on a file that is there: the [try] statement. *)
Lemma load_paths_present (env : Env) (paths_file : Path) (w : World) :
  exists_is env w paths_file true ->
  load_paths env paths_file w =
    match (read_text env paths_file w).1 with
    | Ok text =>
        match json_loads env text with
        | Some v => (Ok v, w)
        | None =>
            if isinstance (json_error env text) JSONDecodeError
            then (Ok PyNone, after w [decode_error_record paths_file (json_error env text)])
            else (Raise (json_error env text), w)
        end
    | Raise e =>
        if isinstance e JSONDecodeError
        then (Ok PyNone, after w [decode_error_record paths_file e])
        else (Raise e, w)
    end.
Proof.
  intros Hp. unfold load_paths. rewrite bind_eq, (exists_eq _ _ _ _ Hp). branch.
  unfold try_except. rewrite bind_eq.
  pose proof (read_text_world env paths_file w) as Hw.
  destruct (read_text env paths_file w) as [[text|e] w1]; simpl in Hw; subst w1; simpl.
  - rewrite bind_eq. unfold json_load. destruct (json_loads env text); [done|].
    simpl. by destruct (isinstance (json_error env text) JSONDecodeError).
  - by destruct (isinstance e JSONDecodeError).
Qed.

(** C10: when opening or reading the configuration file, which exists,
    raises an I/O error, [load_paths] raises it too, since its handler is for
    [JSONDecodeError] alone, and so does [update_all_repositories], which has
    no handler: the run stops there, with nothing logged and no repository
    visited. *)
Theorem load_paths_io_error_escapes (env : Env) (paths_file : Path) (w : World) (e : exn) :
  exists_is env w paths_file true ->
  (read_text env paths_file w).1 = Raise e ->
  isinstance e OSError = true ->
  load_paths env paths_file w = (Raise e, w)
  /\ update_all_repositories env paths_file w = (Raise e, w).
Proof.
  intros Hp Hr He.
  assert (load_paths env paths_file w = (Raise e, w)) as Hl.
  { rewrite load_paths_present by done. by rewrite Hr, (oserror_not_decode e He). }
  split; [done|]. unfold update_all_repositories. by rewrite bind_eq, Hl.
Qed.

(** A configuration file that the process may not open. *)
Lemma load_paths_io_error_escapes_witness :
  update_all_repositories (unreadable_env config) config (configured_world "{}")
    = (Raise permission_denied, configured_world "{}").
Proof.
  apply (load_paths_io_error_escapes (unreadable_env config) config (configured_world "{}")
           permission_denied).
  - split; [reflexivity | by vm_compute].
  - by vm_compute.
  - reflexivity.
Defined.

(** C3, as the code has it: when the configuration file exists and
    [json.load] raises [JSONDecodeError] on its text, [load_paths] logs the
    error and returns [None]; when the text decodes to a falsy value ([null],
    [false], [0], an empty string, list or object), [load_paths] returns that
    value.  In both cases [update_all_repositories] takes the result for no
    mapping: it logs the warning "No repository paths found" and returns,
    without raising and without visiting a repository. *)
Theorem unparsable_configuration_is_no_mapping (env : Env) (paths_file : Path) (w : World)
    (text : string) :
  exists_is env w paths_file true ->
  (read_text env paths_file w).1 = Ok text ->
  (json_loads env text = None ->
   isinstance (json_error env text) JSONDecodeError = true ->
     load_paths env paths_file w
       = (Ok PyNone, after w [decode_error_record paths_file (json_error env text)])
     /\ update_all_repositories env paths_file w
        = (Ok tt, after w [decode_error_record paths_file (json_error env text);
                           no_paths_record])
     /\ calls_of (trace (update_all_repositories env paths_file w).2) = calls_of (trace w))
  /\ (forall v,
        json_loads env text = Some v ->
        truthy v = false ->
        load_paths env paths_file w = (Ok v, w)
        /\ update_all_repositories env paths_file w = (Ok tt, after w [no_paths_record])
        /\ calls_of (trace (update_all_repositories env paths_file w).2)
           = calls_of (trace w)).
Proof.
  intros Hp Hr. split.
  - intros Hj He.
    assert (load_paths env paths_file w
            = (Ok PyNone, after w [decode_error_record paths_file (json_error env text)]))
      as Hl.
    { rewrite load_paths_present by done. by rewrite Hr, Hj, He. }
    assert (update_all_repositories env paths_file w
            = (Ok tt, after w [decode_error_record paths_file (json_error env text);
                               no_paths_record])) as Hu.
    { unfold update_all_repositories. rewrite bind_eq, Hl. simpl truthy. branch.
      same_world. }
    split; [done|]. split; [done|]. rewrite Hu. simpl. rewrite calls_of_app. simpl.
    by rewrite app_nil_r.
  - intros v Hj Hv.
    assert (load_paths env paths_file w = (Ok v, w)) as Hl.
    { rewrite load_paths_present by done. by rewrite Hr, Hj. }
    assert (update_all_repositories env paths_file w = (Ok tt, after w [no_paths_record]))
      as Hu.
    { unfold update_all_repositories. rewrite bind_eq, Hl, Hv. done. }
    split; [done|]. split; [done|]. rewrite Hu. simpl. rewrite calls_of_app. simpl.
    by rewrite app_nil_r.
Qed.

(** A configuration file holding the text [invalid json], and one holding
    [null]. *)
Lemma unparsable_configuration_is_no_mapping_witness :
  update_all_repositories (sample_env []) config (configured_world "invalid json")
    = (Ok tt, after (configured_world "invalid json")
                [decode_error_record config decode_error; no_paths_record])
  /\ update_all_repositories (sample_env []) config (configured_world "null")
     = (Ok tt, after (configured_world "null") [no_paths_record]).
Proof.
  split.
  - apply (proj1 (unparsable_configuration_is_no_mapping (sample_env []) config
                    (configured_world "invalid json") "invalid json"
                    ltac:(split; [reflexivity | by vm_compute])
                    ltac:(by vm_compute))).
    + reflexivity.
    + reflexivity.
  - apply (proj2 (unparsable_configuration_is_no_mapping (sample_env []) config
                    (configured_world "null") "null"
                    ltac:(split; [reflexivity | by vm_compute])
                    ltac:(by vm_compute))
             PyNone).
    + reflexivity.
    + reflexivity.
Defined.

(** C3, as stated, fails on a configuration file holding the JSON array
    [[1]]: [load_paths] does not fail, it returns the list; the list is
    truthy, so [update_all_repositories] goes on to [paths.items()] and
    raises [AttributeError] instead of logging a warning and returning. *)
Lemma non_object_configuration_raises :
  load_paths (sample_env []) config (configured_world "[1]")
    = (Ok (PyList [PyInt 1]), configured_world "[1]")
  /\ update_all_repositories (sample_env []) config (configured_world "[1]")
     = (Raise no_items_error, configured_world "[1]").
Proof. split; by vm_compute. Qed.

Lemma silent_writes {A} (m : M A) (w : World) :
  silent not_write m -> writes_of (trace (m w).2) = writes_of (trace w).
Proof.
  intros Hm. destruct (Hm w) as (_ & evs & -> & Hok).
  by rewrite writes_of_app, (not_write_writes _ Hok), app_nil_r.
Qed.

(** With the file in place, [load_paths] writes nothing. *)
Lemma load_paths_present_frame (env : Env) (paths_file : Path) (w : World) :
  is_Some (fs w !! paths_file) ->
  fs (load_paths env paths_file w).2 = fs w
  /\ writes_of (trace (load_paths env paths_file w).2) = writes_of (trace w).
Proof.
  intros Hsome. destruct (stat_fault env paths_file) as [e|] eqn:Hstat.
  - unfold load_paths, exists_. rewrite bind_eq, Hstat. done.
  - assert (exists_is env w paths_file true) as Hp.
    { split; [done|]. by apply bool_decide_eq_true. }
    rewrite load_paths_present by done.
    destruct (read_text env paths_file w).1 as [text|e].
    + destruct (json_loads env text); [done|].
      destruct (isinstance (json_error env text) JSONDecodeError); [|done]. simpl.
      rewrite writes_of_app. simpl. by rewrite app_nil_r.
    + destruct (isinstance e JSONDecodeError); [|done]. simpl.
      rewrite writes_of_app. simpl. by rewrite app_nil_r.
Qed.

(** A configuration file that cannot be created: [_save_paths] logs the
    [OSError] and [load_paths] still returns the empty mapping, having
    visited no repository and started no subprocess. *)
Lemma load_paths_unwritable (env : Env) (paths_file : Path) (w : World) (e : exn) :
  exists_is env w paths_file false ->
  write_fault env paths_file = Some e ->
  isinstance e OSError = true ->
  exists w1,
    load_paths env paths_file w = (Ok (PyDict []), w1)
    /\ calls_of (trace w1) = calls_of (trace w)
    /\ runs_of (trace w1) = runs_of (trace w)
    /\ last (trace w1) = Some (write_error_record paths_file e).
Proof.
  intros Hp Hwrite He. pose proof Hp as [_ Habsent].
  apply bool_decide_eq_false in Habsent.
  assert (fs w !! paths_file = None) as Hnone.
  { destruct (fs w !! paths_file) eqn:E; [|done]. exfalso. apply Habsent. by eexists. }
  unfold load_paths.
  rewrite bind_eq, (exists_eq _ _ _ _ Hp). branch.
  rewrite bind_eq, log_eq, bind_eq. cbv beta iota.
  unfold _save_paths, try_except, write_text. rewrite Hwrite. simpl fs. rewrite Hnone.
  destruct (torn_write env paths_file) as [n|]; rewrite He; run_monad;
    eexists; (split; [reflexivity|]); simpl;
    rewrite <- ?app_assoc, ?calls_of_app, ?runs_of_app, ?last_app; simpl;
    by rewrite ?app_nil_r.
Qed.

(** C9: when the configuration file is absent and the filesystem lets the
    program create and read it, the first [load_paths] writes the empty
    mapping to the file and returns the empty mapping, and a second
    [load_paths] returns the empty mapping again, without raising and leaving
    the world as the first call left it.  And when the file exists, neither
    [load_paths] nor [update_all_repositories] changes any file or opens one
    for writing, whatever else happens in the run. *)
Theorem load_paths_creates_once (env : Env) (paths_file : Path) :
  (forall w,
      exists_is env w paths_file false ->
      write_fault env paths_file = None ->
      read_fault env paths_file = None ->
      json_loads env (json_dumps env (PyDict [])) = Some (PyDict []) ->
      let text := json_dumps env (PyDict []) in
      let first := load_paths env paths_file w in
      let second := load_paths env paths_file first.2 in
      first = (Ok (PyDict []),
               mkWorld (<[paths_file := File text]> (fs w))
                       (trace w ++ [creating_record paths_file; EWrite paths_file text]))
      /\ second = (Ok (PyDict []), first.2))
  /\ (forall w,
        is_Some (fs w !! paths_file) ->
        let loaded := (load_paths env paths_file w).2 in
        let ran := (update_all_repositories env paths_file w).2 in
        fs loaded = fs w
        /\ writes_of (trace loaded) = writes_of (trace w)
        /\ fs ran = fs w
        /\ writes_of (trace ran) = writes_of (trace w)).
Proof.
  split.
  - intros w [Hstat Habsent] Hwrite Hread Hjson text first second.
    apply bool_decide_eq_false in Habsent.
    assert (fs w !! paths_file = None) as Hnone.
    { destruct (fs w !! paths_file) eqn:E; [|done]. exfalso. apply Habsent. by eexists. }
    assert (first = (Ok (PyDict []),
                     mkWorld (<[paths_file := File text]> (fs w))
                       (trace w ++ [creating_record paths_file; EWrite paths_file text])))
      as Hfirst.
    { subst first. unfold load_paths.
      rewrite bind_eq, (exists_eq env w paths_file false).
      2:{ split; [done|]. by apply bool_decide_eq_false. }
      branch. rewrite bind_eq, log_eq, bind_eq. cbv beta iota.
      unfold _save_paths, try_except, write_text.
      rewrite Hwrite. simpl fs. rewrite Hnone. fold text. same_world. }
    split; [done|]. subst second. rewrite Hfirst. simpl snd.
    rewrite load_paths_present.
    2:{ split; [done|]. simpl. apply bool_decide_eq_true. rewrite lookup_insert_eq.
        by eexists. }
    unfold read_text. rewrite Hread. simpl fs. rewrite lookup_insert_eq. simpl.
    subst text. by rewrite Hjson.
  - intros w Hsome loaded ran.
    destruct (load_paths_present_frame env paths_file w Hsome) as [Hfs Hwr].
    split; [done|]. split; [done|]. subst ran loaded.
    unfold update_all_repositories. rewrite bind_eq.
    destruct (load_paths env paths_file w) as [[paths|e] w1]; simpl in Hfs, Hwr; [|done].
    match goal with
    | |- context [fs (?m w1).2] => assert (silent not_write m) as Hs
    end.
    { destruct (negb (truthy paths)); [by apply silent_log|].
      apply silent_bind; [apply silent_items|]. intros entries.
      apply silent_bind; [apply silent_update_loop|]. intros c. by apply silent_log. }
    split.
    + by rewrite (proj1 (Hs w1)).
    + by rewrite (silent_writes _ w1 Hs).
Qed.

(** No configuration file at first; and a run over a configuration file
    that is there. *)
Lemma load_paths_creates_once_witness :
  (let first := load_paths (sample_env []) config sample_world in
   first.1 = Ok (PyDict [])
   /\ fs first.2 !! config = Some (File "{}")
   /\ load_paths (sample_env []) config first.2 = (Ok (PyDict []), first.2))
  /\ (let w := configured_world two_repositories_text in
      let ran := (update_all_repositories (sample_env [dirty]) config w).2 in
      fs ran = fs w /\ writes_of (trace ran) = []).
Proof.
  split.
  - destruct (proj1 (load_paths_creates_once (sample_env []) config) sample_world)
      as [Hfirst Hsecond].
    + split; [reflexivity | by vm_compute].
    + reflexivity.
    + reflexivity.
    + reflexivity.
    + cbv zeta in Hfirst, Hsecond. cbv zeta. rewrite Hsecond, Hfirst.
      split; [reflexivity|]. split; [by vm_compute | reflexivity].
  - destruct (proj2 (load_paths_creates_once (sample_env [dirty]) config)
                (configured_world two_repositories_text)) as (_ & _ & Hfs & Hwr).
    + vm_compute. by eexists.
    + split; [exact Hfs | exact Hwr].
Defined.

(** ** The loop over the mapping *)

(** The loop adds to its counter the number of updates that returned
    [True], whatever the others returned. *)
Lemma update_loop_run_entries (env : Env) (entries : list (string * pyvalue)) :
  forall success_count w bs w',
    run_entries env entries w = Some (bs, w') ->
    update_loop env entries success_count w = (Ok (success_count + successes bs), w').
Proof.
  induction entries as [|[name path] rest IH]; intros c w bs w' Hrun; simpl in *.
  - injection Hrun as <- <-. simpl. by rewrite Nat.add_0_r.
  - unfold mbind, M_bind, bind.
    destruct (update_repository env name path w) as [[b|e] w1]; [|done].
    destruct (run_entries env rest w1) as [[bs1 w2]|] eqn:Hrest; [|done].
    injection Hrun as <- <-.
    rewrite (IH _ _ _ _ Hrest). simpl. f_equal. f_equal. destruct b; lia.
Qed.

Lemma run_entries_calls (env : Env) (entries : list (string * pyvalue)) :
  forall w bs w',
    run_entries env entries w = Some (bs, w') ->
    calls_of (trace w') = calls_of (trace w) ++ entries /\ length bs = length entries.
Proof.
  induction entries as [|[name path] rest IH]; intros w bs w' Hrun; simpl in *.
  - injection Hrun as <- <-. by rewrite app_nil_r.
  - pose proof (update_repository_frame env name path w) as (_ & evs & Htr & Hok).
    destruct (update_repository env name path w) as [[b|e] w1]; [|done].
    destruct (run_entries env rest w1) as [[bs1 w2]|] eqn:Hrest; [|done].
    injection Hrun as <- <-.
    destruct (IH _ _ _ Hrest) as [Hc Hl]. simpl in Htr.
    rewrite Hc, Htr, calls_of_app. simpl. rewrite (plain_calls _ Hok).
    split; [by rewrite <- app_assoc | by rewrite Hl].
Qed.

(** C4, as the code has it: when [load_paths] returns a non-empty mapping
    and each call of [update_repository] returns, [update_all_repositories]
    calls [update_repository] once per entry, in the order of the mapping,
    whatever booleans the calls return, and its last act is to log the
    summary with the number of [True] results over the number of entries. *)
Theorem update_all_visits_every_entry (env : Env) (paths_file : Path) (w w1 w2 : World)
    (entries : list (string * pyvalue)) (bs : list bool) :
  load_paths env paths_file w = (Ok (PyDict entries), w1) ->
  entries <> [] ->
  run_entries env entries w1 = Some (bs, w2) ->
  update_all_repositories env paths_file w
    = (Ok tt, after w2 [summary_record (successes bs) (length entries)])
  /\ calls_of (trace (update_all_repositories env paths_file w).2)
     = calls_of (trace w1) ++ entries
  /\ length bs = length entries.
Proof.
  intros Hload Hne Hrun.
  destruct (run_entries_calls _ _ _ _ _ Hrun) as [Hcalls Hlen].
  assert (update_all_repositories env paths_file w
          = (Ok tt, after w2 [summary_record (successes bs) (length entries)])) as Hu.
  { unfold update_all_repositories. rewrite bind_eq, Hload.
    destruct entries as [|entry rest]; [done|].
    cbv beta iota delta [negb truthy items].
    rewrite bind_eq. unfold mret at 1, M_ret, ret. cbv beta iota.
    rewrite bind_eq, (update_loop_run_entries _ _ _ _ _ _ Hrun). done. }
  rewrite Hu. split; [done|]. split; [|done]. simpl.
  rewrite calls_of_app, Hcalls. simpl. by rewrite app_nil_r.
Qed.

(** The scenario of the specification: [a] is a working copy with changes,
    [b] is a path that does not exist; both are visited and the summary
    reads 1/2. *)
Lemma update_all_visits_every_entry_witness :
  let env := sample_env [dirty; done_; done_; done_] in
  let w := configured_world two_repositories_text in
  calls_of (trace (update_all_repositories env config w).2) = two_repositories
  /\ last (trace (update_all_repositories env config w).2)
     = Some (ELog INFO [Text "Successfully updated 1/2 repositories"]).
Proof.
  intros env w.
  destruct (update_all_visits_every_entry env config w w
              (default w (snd <$> run_entries env two_repositories w))
              two_repositories [true; false]) as (Hu & Hcalls & _).
  - by vm_compute.
  - done.
  - by vm_compute.
  - split; [exact Hcalls|]. rewrite Hu. by vm_compute.
Defined.

(** C4, as stated, fails on a mapping of two entries whose first value is a
    number, and on one whose first path [stat] refuses to look at:
    [load_paths] returns the mapping, the first call of [update_repository]
    raises, the second entry is never visited and no summary is logged. *)
Lemma update_all_cut_short :
  (let env := sample_env [dirty; done_; done_; done_] in
   let w := configured_world number_first_text in
   let r := update_all_repositories env config w in
   load_paths env config w = (Ok (PyDict number_first), w)
   /\ r.1 = Raise not_a_path_error
   /\ calls_of (trace r.2) = [("a", PyInt 1)]
   /\ logs_of (trace r.2) = [])
  /\ (let env := guarded_env [dirty; done_; done_; done_] in
      let w := configured_world private_first_text in
      let r := update_all_repositories env config w in
      load_paths env config w = (Ok (PyDict private_first), w)
      /\ r.1 = Raise permission_denied
      /\ calls_of (trace r.2) = [("a", PyStr "/srv/private/repo")]
      /\ logs_of (trace r.2) = []).
Proof. split; repeat split; by vm_compute. Qed.

(** ** The exception boundary of [update_repository] *)

Lemma raises_only_ret {A} (P : exn -> Prop) (a : A) : raises_only P (mret a).
Proof. by intros w e w'. Qed.

Lemma raises_only_bind {A B} (P : exn -> Prop) (m : M A) (k : A -> M B) :
  raises_only P m -> (forall a, raises_only P (k a)) -> raises_only P (m ≫= k).
Proof.
  intros Hm Hk w e w'. rewrite bind_eq.
  destruct (m w) as [[a|e1] w1] eqn:E.
  - apply Hk.
  - intros [= <- <-]. by apply (Hm _ _ _ E).
Qed.

Lemma raises_only_try {A} (P : exn -> Prop) (body : M A) (cls : exn_class)
    (handler : exn -> M A) :
  raises_only P body -> (forall e, raises_only P (handler e)) ->
  raises_only P (try_except body cls handler).
Proof.
  intros Hm Hk w e w'. unfold try_except.
  destruct (body w) as [[a|e1] w1] eqn:E; [done|].
  destruct (isinstance e1 cls).
  - apply Hk.
  - intros [= <- <-]. by apply (Hm _ _ _ E).
Qed.

Lemma raises_only_log (P : exn -> Prop) (lvl : level) (msg : message) :
  raises_only P (log lvl msg).
Proof. by intros w e w'. Qed.

Lemma raises_only_subprocess_run (env : Env) (argv : list string) (cwd : Path) :
  (forall h inv e, git env h inv = RunRaises e -> isinstance e Exception = true) ->
  raises_only (fun e => isinstance e Exception = true) (subprocess_run env argv cwd).
Proof.
  intros Hgit w e w'. rewrite subprocess_run_eq. unfold answer.
  destruct (git env (runs_of (trace w)) (argv, cwd)) as [| |e1] eqn:E.
  - done.
  - by intros [= <- <-].
  - intros [= <- <-]. by apply (Hgit _ _ _ E).
Qed.

Lemma raises_only_update_steps (env : Env) (name p : string) (cwd : Path) :
  (forall h inv e, git env h inv = RunRaises e -> isinstance e Exception = true) ->
  raises_only (fun e => isinstance e Exception = true) (update_steps env name p cwd).
Proof.
  intros Hgit.
  assert (forall command,
             raises_only (fun e => isinstance e Exception = true)
               (_execute_git_command env command cwd)) as Hexec.
  { intros command. apply raises_only_try.
    - apply raises_only_bind; [by apply raises_only_subprocess_run|].
      intros. apply raises_only_ret.
    - intros e. apply raises_only_bind; [apply raises_only_log|].
      intros. apply raises_only_ret. }
  unfold update_steps. apply raises_only_bind.
  { apply raises_only_try.
    - apply raises_only_bind; [by apply raises_only_subprocess_run|].
      intros. apply raises_only_ret.
    - intros e. apply raises_only_bind; [apply raises_only_log|].
      intros. apply raises_only_ret. }
  intros changes. destruct (py_not changes).
  { apply raises_only_bind; [apply raises_only_log|]. intros. apply raises_only_ret. }
  apply raises_only_bind; [apply Hexec|]. intros [|]; simpl; [|apply raises_only_ret].
  apply raises_only_bind; [apply Hexec|]. intros [|]; simpl; [|apply raises_only_ret].
  apply raises_only_bind; [apply Hexec|]. intros [|]; simpl; [|apply raises_only_ret].
  apply raises_only_bind; [apply raises_only_log|]. intros. apply raises_only_ret.
Qed.

(** With well-behaved collaborators [update_repository] returns a boolean
    for every path that is a string. *)
Lemma update_repository_returns (env : Env) (name p : string) (w : World) :
  well_behaved env ->
  exists b w', update_repository env name (PyStr p) w = (Ok b, w').
Proof.
  intros [Hstat Hgit].
  destruct (bool_decide (is_Some (fs w !! Path_ p))) eqn:Hp.
  2:{ eexists _, _. apply update_repository_missing. by split. }
  destruct (bool_decide (is_Some (fs w !! (Path_ p </> ".git")))) eqn:Hg.
  2:{ eexists _, _. apply update_repository_no_git; by split. }
  rewrite update_repository_checked by by split.
  destruct (update_steps _ _ _ _ _) as [[b|e] w1] eqn:E; [by eauto|].
  rewrite (raises_only_update_steps env name p (Path_ p) Hgit _ _ _ E). by eauto.
Qed.

(** So every entry of a mapping of strings is visited. *)
Lemma run_entries_returns (env : Env) (entries : list (string * pyvalue)) :
  well_behaved env ->
  Forall (fun entry => exists p, entry.2 = PyStr p) entries ->
  forall w, exists bs w', run_entries env entries w = Some (bs, w').
Proof.
  intros Henv Hstr. induction Hstr as [|[name path] rest [p Hp] _ IH]; intros w; simpl.
  - by eauto.
  - simpl in Hp. subst path.
    destruct (update_repository_returns env name p w Henv) as (b & w1 & ->).
    destruct (IH w1) as (bs & w2 & ->). by eauto.
Qed.

Lemma execute_raises (env : Env) (command : list string) (cwd : Path) (w : World)
    (e : exn) :
  answer env (runs_of (trace w)) command cwd = RunRaises e ->
  isinstance e CalledProcessError = false ->
  _execute_git_command env command cwd w = (Raise e, after w [ERun command cwd]).
Proof. intros H He. by rewrite execute_git_command_eq, H, He. Qed.

(** C2, as the code has it: once the two checks have answered, no
    exception of class [Exception] leaves [update_repository].  An
    [Exception] other than [CalledProcessError] raised by the status query, or
    by stage, commit or push when the status query reported changes, is caught
    by the handler of [update_repository], logged as an unexpected error and
    turned into [False]; a stage, commit or push that fails in any way gives
    [False] too.  An exception raised by either check is raised before the
    [try] statement: it leaves [update_repository], and the loop of
    [update_all_repositories] with it. *)
Theorem update_repository_exception_boundary (env : Env) (name p : string) (w : World) :
  let cwd := Path_ p in
  let h := runs_of (trace w) in
  let r := update_repository env name (PyStr p) w in
  let called := ECall name (PyStr p) in
  (exists_is env w cwd true ->
   exists_is env w (cwd </> ".git") true ->
     (forall e w', r = (Raise e, w') -> isinstance e Exception = false)
     /\ (forall e,
           answer env h status_argv cwd = RunRaises e ->
           unexpected e ->
           r = (Ok false,
                after w [called; ERun status_argv cwd; unexpected_error_record name p e]))
     /\ (forall out err,
           answer env h status_argv cwd = Completed out err ->
           strip out <> "" ->
           let h1 := h ++ [(status_argv, cwd)] in
           let h2 := h1 ++ [(add_argv, cwd)] in
           let h3 := h2 ++ [(commit_argv env, cwd)] in
           let stage := answer env h1 add_argv cwd in
           let commit := answer env h2 (commit_argv env) cwd in
           let push := answer env h3 push_argv cwd in
           (fails stage -> r.1 = Ok false)
           /\ (succeeds stage -> fails commit -> r.1 = Ok false)
           /\ (succeeds stage -> succeeds commit -> fails push -> r.1 = Ok false)
           /\ (forall e,
                 unexpected e ->
                 stage = RunRaises e ->
                 r = (Ok false,
                      after w [called; ERun status_argv cwd; ERun add_argv cwd;
                               unexpected_error_record name p e]))
           /\ (forall e,
                 unexpected e ->
                 succeeds stage ->
                 commit = RunRaises e ->
                 r = (Ok false,
                      after w [called; ERun status_argv cwd; ERun add_argv cwd;
                               ERun (commit_argv env) cwd;
                               unexpected_error_record name p e]))
           /\ (forall e,
                 unexpected e ->
                 succeeds stage ->
                 succeeds commit ->
                 push = RunRaises e ->
                 r = (Ok false,
                      after w [called; ERun status_argv cwd; ERun add_argv cwd;
                               ERun (commit_argv env) cwd; ERun push_argv cwd;
                               unexpected_error_record name p e]))))
  /\ (forall e,
        stat_fault env cwd = Some e
        \/ (exists_is env w cwd true /\ stat_fault env (cwd </> ".git") = Some e) ->
        r = (Raise e, after w [called])
        /\ forall rest success_count,
             update_loop env ((name, PyStr p) :: rest) success_count w
               = (Raise e, after w [called])).
Proof.
  intros cwd h r called. subst r called. split.
  - intros Hp Hg. rewrite update_repository_checked by done. fold cwd.
    split; [|split].
    + intros e w'. destruct (update_steps _ _ _ _ _) as [[b|e1] w1]; [done|].
      destruct (isinstance e1 Exception) eqn:He1; [done|]. by intros [= <- <-].
    + intros e Hst [He Hc]. unfold update_steps. rewrite bind_eq, has_changes_eq.
      rewrite runs_of_after. simpl runs_of. rewrite app_nil_r. fold h.
      rewrite Hst, Hc, He. same_world.
    + intros out err Hst Hne h1 h2 h3 stage commit push. subst stage commit push.
      rewrite (update_steps_changes env name p cwd _ out err);
        [| by rewrite runs_of_after; simpl runs_of; rewrite app_nil_r | done].
      rewrite after_after. simpl app.
      set (w1 := after w [ECall name (PyStr p); ERun status_argv cwd]).
      set (w2 := after w1 [ERun add_argv cwd]).
      set (w3 := after w2 [ERun (commit_argv env) cwd]).
      assert (runs_of (trace w1) = h1) as E1 by count_runs.
      assert (runs_of (trace w2) = h2) as E2 by (subst h2; rewrite <- E1; count_runs).
      assert (runs_of (trace w3) = h3) as E3 by (subst h3; rewrite <- E2; count_runs).
      rewrite bind_eq. rewrite <- E1, <- E2, <- E3.
      split_and!.
      * intros F.
        destruct (execute_fails _ _ _ _ F) as [[e ->]|(e & He & ->)]; [done|].
        by rewrite He.
      * intros S F. rewrite (execute_succeeds _ _ _ _ S). branch. fold w2.
        rewrite bind_eq.
        destruct (execute_fails _ _ _ _ F) as [[e ->]|(e & He & ->)]; [done|].
        by rewrite He.
      * intros S1 S2 F. rewrite (execute_succeeds _ _ _ _ S1). branch. fold w2.
        rewrite bind_eq, (execute_succeeds _ _ _ _ S2). branch. fold w3.
        rewrite bind_eq.
        destruct (execute_fails _ _ _ _ F) as [[e ->]|(e & He & ->)]; [done|].
        by rewrite He.
      * intros e [He Hc] Hr. rewrite (execute_raises _ _ _ _ _ Hr Hc), He.
        subst w1. same_world.
      * intros e [He Hc] S Hr. rewrite (execute_succeeds _ _ _ _ S). branch. fold w2.
        rewrite bind_eq, (execute_raises _ _ _ _ _ Hr Hc), He.
        subst w2 w1. same_world.
      * intros e [He Hc] S1 S2 Hr. rewrite (execute_succeeds _ _ _ _ S1). branch. fold w2.
        rewrite bind_eq, (execute_succeeds _ _ _ _ S2). branch. fold w3.
        rewrite bind_eq, (execute_raises _ _ _ _ _ Hr Hc), He.
        subst w3 w2 w1. same_world.
  - intros e H.
    assert (update_repository env name (PyStr p) w
            = (Raise e, after w [ECall name (PyStr p)])) as Hr.
    { destruct H as [Hs|[Hp Hs]];
        [by apply update_repository_stat_fault | by apply update_repository_git_stat_fault]. }
    split; [done|]. intros rest c. simpl. by rewrite bind_eq, Hr.
Qed.

(** [git] is not installed: the status query raises [FileNotFoundError],
    which is caught.  A push that cannot be started after a commit that
    went through.  And a repository below [/srv/private]: the first check
    raises [PermissionError], which is not caught. *)
Lemma update_repository_exception_boundary_witness :
  update_repository (sample_env [RunRaises git_missing]) "a" (PyStr repo) sample_world
    = (Ok false, after sample_world [ECall "a" (PyStr repo); ERun status_argv (Path_ repo);
                                     unexpected_error_record "a" repo git_missing])
  /\ (update_repository (sample_env [dirty; done_; done_; RunRaises git_missing]) "a"
        (PyStr repo) sample_world).1 = Ok false
  /\ update_repository (guarded_env []) "a" (PyStr "/srv/private/repo") sample_world
     = (Raise permission_denied, after sample_world [ECall "a" (PyStr "/srv/private/repo")]).
Proof.
  split; [|split].
  - apply (proj1 (proj2 (proj1 (update_repository_exception_boundary
                                  (sample_env [RunRaises git_missing]) "a" repo
                                  sample_world)
                           ltac:(split; [reflexivity | by vm_compute])
                           ltac:(split; [reflexivity | by vm_compute])))
             git_missing).
    + reflexivity.
    + split; reflexivity.
  - apply (proj2 (proj2 (proj1 (update_repository_exception_boundary
                                  (sample_env [dirty; done_; done_; RunRaises git_missing])
                                  "a" repo sample_world)
                           ltac:(split; [reflexivity | by vm_compute])
                           ltac:(split; [reflexivity | by vm_compute])))
             one_modified "" eq_refl ltac:(by vm_compute)).
    + exact I.
    + exact I.
    + reflexivity.
  - apply (proj2 (update_repository_exception_boundary
                    (guarded_env []) "a" "/srv/private/repo" sample_world)).
    left. reflexivity.
Defined.

(** C2, as stated, fails where [stat] is refused below [/srv/private]: the
    exception raised while checking that the path exists leaves
    [update_repository]; it then leaves [update_all_repositories], whose
    second entry is never visited.  It fails as well on a path that is not a
    string, where [Path(path)] raises [TypeError]. *)
Lemma update_repository_exception_escapes :
  update_repository (guarded_env []) "a" (PyStr "/srv/private/repo") sample_world
    = (Raise permission_denied, after sample_world [ECall "a" (PyStr "/srv/private/repo")])
  /\ (let run := update_all_repositories (guarded_env [dirty; done_; done_; done_]) config
                   (configured_world private_first_text) in
      run.1 = Raise permission_denied
      /\ calls_of (trace run.2) = [("a", PyStr "/srv/private/repo")])
  /\ (update_repository (sample_env []) "a" (PyInt 1) sample_world).1
     = Raise not_a_path_error.
Proof. repeat split; by vm_compute. Qed.

(** * Further properties of the code *)

(** ** Running one command *)

(** X1: [_execute_git_command] returns [True] exactly when the command exits
    with status zero, and whatever happens it starts one subprocess, the
    command it was given in the directory it was given: there is no retry. *)
Theorem execute_git_command_exit_status (env : Env) (command : list string) (cwd : Path)
    (w : World) :
  ((_execute_git_command env command cwd w).1 = Ok true
     <-> succeeds (answer env (runs_of (trace w)) command cwd))
  /\ runs_of (trace (_execute_git_command env command cwd w).2)
     = runs_of (trace w) ++ [(command, cwd)].
Proof.
  rewrite execute_git_command_eq.
  destruct (answer env (runs_of (trace w)) command cwd) as [out err|rc out err|e]; simpl.
  - split; [done|]. by rewrite runs_of_app.
  - split; [done|]. rewrite runs_of_app. simpl. done.
  - destruct (isinstance e CalledProcessError); simpl;
      (split; [done|]); rewrite runs_of_app; done.
Qed.

(** X2: A command that ran to a zero exit status leaves no log record; a
    command reported as failed ([False]) leaves exactly one, at level
    [ERROR]; an exception that is let through leaves none. *)
Theorem execute_git_command_logging (env : Env) (command : list string) (cwd : Path)
    (w : World) :
  exists logs,
    logs_of (trace (_execute_git_command env command cwd w).2) = logs_of (trace w) ++ logs
    /\ match (_execute_git_command env command cwd w).1 with
       | Ok false => exists msg, logs = [(ERROR, msg)]
       | _ => logs = []
       end.
Proof.
  rewrite execute_git_command_eq.
  destruct (answer env (runs_of (trace w)) command cwd) as [out err|rc out err|e]; simpl.
  - exists []. by rewrite logs_of_app.
  - eexists. rewrite logs_of_app. simpl. split; [done|]. by eexists.
  - destruct (isinstance e CalledProcessError); simpl.
    + eexists. rewrite logs_of_app. simpl. split; [done|]. by eexists.
    + exists []. by rewrite logs_of_app.
Qed.

(** ** The status query, again *)

Lemma rstrip_empty (s : string) : rstrip s = "" <-> all_space s = true.
Proof.
  induction s as [|c s IH]; simpl; [done|].
  destruct (rstrip s) eqn:E.
  - destruct (isspace c); simpl; [|done]. split; [intros _; by apply IH | done].
  - split; [done|]. intros [_ H]%andb_prop. by apply IH in H.
Qed.

Lemma all_space_lstrip (s : string) : all_space (lstrip s) = all_space s.
Proof.
  induction s as [|c s IH]; simpl; [done|].
  destruct (isspace c) eqn:E; simpl; [done|]. by rewrite E.
Qed.

Lemma strip_nonempty (s : string) : nonempty (strip s) = negb (all_space s).
Proof.
  unfold strip. rewrite <- (all_space_lstrip s).
  destruct (rstrip (lstrip s)) eqn:E.
  - apply rstrip_empty in E. by rewrite E.
  - destruct (all_space (lstrip s)) eqn:F; [|done].
    apply rstrip_empty in F. congruence.
Qed.

(** X3: When the status query exits with status zero, [_has_changes] returns
    [True] if the output holds a character that is not white space and
    [False] otherwise: an output of blank lines counts as no change. *)
Theorem has_changes_ignores_white_space (env : Env) (p : Path) (w : World)
    (out err : string) :
  answer env (runs_of (trace w)) status_argv p = Completed out err ->
  (_has_changes env p w).1 = Ok (Some (negb (all_space out))).
Proof.
  intros H. rewrite has_changes_eq, H. simpl. by rewrite strip_nonempty.
Qed.

(** A status output of two spaces and a newline. *)
Lemma has_changes_ignores_white_space_witness :
  (_has_changes (sample_env [Completed blank_output ""]) (Path_ repo) sample_world).1
    = Ok (Some false).
Proof.
  apply (has_changes_ignores_white_space (sample_env [Completed blank_output ""])
           (Path_ repo) sample_world blank_output "").
  reflexivity.
Defined.

(** X4: [_has_changes] starts one subprocess, [git status --porcelain] in the
    repository, whatever comes of it; and an exception other than
    [CalledProcessError] (a missing executable, an interrupt) is neither
    logged nor turned into a result: it is raised to the caller. *)
Theorem has_changes_one_query (env : Env) (p : Path) (w : World) :
  runs_of (trace (_has_changes env p w).2) = runs_of (trace w) ++ [(status_argv, p)]
  /\ (forall e,
        answer env (runs_of (trace w)) status_argv p = RunRaises e ->
        isinstance e CalledProcessError = false ->
        _has_changes env p w = (Raise e, after w [ERun status_argv p])).
Proof.
  rewrite has_changes_eq. split.
  - destruct (answer env (runs_of (trace w)) status_argv p) as [out err|rc out err|e];
      simpl; [| |destruct (isinstance e CalledProcessError); simpl];
      rewrite runs_of_app; done.
  - intros e -> He. by rewrite He.
Qed.

(** [git] is not installed. *)
Lemma has_changes_one_query_witness :
  _has_changes (sample_env [RunRaises git_missing]) (Path_ repo) sample_world
    = (Raise git_missing, after sample_world [ERun status_argv (Path_ repo)]).
Proof.
  apply (has_changes_one_query (sample_env [RunRaises git_missing]) (Path_ repo)
           sample_world).
  - reflexivity.
  - reflexivity.
Defined.

(** ** One repository, every case *)

Ltac unfold_records :=
  unfold status_failure_record, command_failure_record, unexpected_error_record,
    no_changes_record, pushed_record, missing_path_record, not_a_repository_record,
    git_commands, last_level.

(** Normalise the traces first, then give the number of commands run; the
    log records are read off the goal. *)
Ltac settle k :=
  unfold_records; simpl; rewrite ?runs_of_app, ?logs_of_app; simpl;
  rewrite <- ?app_assoc; simpl;
  exists k; eexists; split_and?; try done; simpl; eauto 10.

Lemma succeeds_of_eq (o : run_outcome) (out err : string) :
  o = Completed out err -> succeeds o.
Proof. by intros ->. Qed.

Ltac normal_history :=
  rewrite ?runs_of_after, ?runs_of_app; simpl runs_of;
  rewrite ?app_nil_r, <- ?app_assoc; simpl app.

(** One command of the sequence: go on when it exits with status zero, and
    close the case with [k] commands run when it does not. *)
Ltac phase k E :=
  rewrite bind_eq, execute_git_command_eq; normal_history;
  let exc := fresh "exc" in
  match goal with
  | |- context [answer ?e ?hh ?a ?c] =>
      destruct (answer e hh a c) as [? ?|? ? ?|exc] eqn:E
  end;
  [ branch; rewrite ?after_after; simpl app
  | branch; settle k
  | destruct (isinstance exc CalledProcessError);
    [ branch; settle k | destruct (isinstance exc Exception); settle k ] ].

(** Everything [update_repository] can do with a path that is a string:
    how far it goes in the four commands, what it logs last, and what the
    commands answered when it returns [True]. *)
Lemma update_repository_outcome (env : Env) (name p : string) (w : World) :
  let cwd := Path_ p in
  let h := runs_of (trace w) in
  let r := update_repository env name (PyStr p) w in
  exists k logs,
    runs_of (trace r.2) = h ++ take k (git_commands env cwd)
    /\ logs_of (trace r.2) = logs_of (trace w) ++ logs
    /\ match r.1 with
       | Ok true =>
           last_level logs = Some INFO
           /\ (k = 1
               \/ (k = 4
                   /\ succeeds (answer env (h ++ [(status_argv, cwd)]) add_argv cwd)
                   /\ succeeds (answer env (h ++ [(status_argv, cwd); (add_argv, cwd)])
                                  (commit_argv env) cwd)
                   /\ succeeds (answer env (h ++ [(status_argv, cwd); (add_argv, cwd);
                                                   (commit_argv env, cwd)])
                                  push_argv cwd)))
       | Ok false => last_level logs = Some ERROR \/ last_level logs = Some WARNING
       | Raise e => True
       end.
Proof.
  intros cwd h r. subst r.
  destruct (stat_fault env (Path_ p)) as [e|] eqn:Hs1.
  { rewrite (update_repository_stat_fault _ _ _ _ _ Hs1).
    settle 0. }
  destruct (bool_decide (is_Some (fs w !! Path_ p))) eqn:Hb1.
  2:{ rewrite (update_repository_missing env name p w) by by split.
      settle 0. }
  destruct (stat_fault env (Path_ p </> ".git")) as [e|] eqn:Hs2.
  { rewrite (update_repository_git_stat_fault env name p w e) by by try split.
    settle 0. }
  destruct (bool_decide (is_Some (fs w !! (Path_ p </> ".git")))) eqn:Hb2.
  2:{ rewrite (update_repository_no_git env name p w) by by split.
      settle 0. }
  rewrite update_repository_checked by by split.
  unfold update_steps. rewrite bind_eq, has_changes_eq. normal_history. fold cwd h.
  destruct (answer env h status_argv cwd) as [out err|rc out err|e] eqn:Est.
  2:{ branch. settle 1. }
  2:{ destruct (isinstance e CalledProcessError).
      - branch. settle 1.
      - destruct (isinstance e Exception); settle 1. }
  destruct (nonempty (strip out)).
  2:{ branch. settle 1. }
  branch. rewrite after_after. simpl app.
  phase 2 Eadd. phase 3 Ecommit. phase 4 Epush.
  branch. settle 4. right.
  split_and!; [done | eapply succeeds_of_eq, Eadd | eapply succeeds_of_eq, Ecommit
              | eapply succeeds_of_eq, Epush].
Qed.

(** X5: A path that is not a string stops [update_repository] at [Path(path)]:
    it raises [TypeError] having probed nothing, run nothing and logged
    nothing, and the loop of [update_all_repositories] raises it in turn. *)
Theorem update_repository_rejects_non_string (env : Env) (name : string) (path : pyvalue)
    (w : World) :
  is_str path = false ->
  update_repository env name path w = (Raise not_a_path_error, after w [ECall name path])
  /\ forall rest success_count,
       update_loop env ((name, path) :: rest) success_count w
         = (Raise not_a_path_error, after w [ECall name path]).
Proof.
  intros Hstr.
  assert (update_repository env name path w
          = (Raise not_a_path_error, after w [ECall name path])) as Hr
    by (by destruct path).
  split; [done|]. intros rest c. simpl. by rewrite bind_eq, Hr.
Qed.

(** A mapping whose value is a number. *)
Lemma update_repository_rejects_non_string_witness :
  update_loop (sample_env [dirty]) [("a", PyInt 1); ("b", PyStr repo)] 0 sample_world
    = (Raise not_a_path_error, after sample_world [ECall "a" (PyInt 1)]).
Proof.
  apply (update_repository_rejects_non_string (sample_env [dirty]) "a" (PyInt 1)
           sample_world).
  reflexivity.
Defined.

(** X7: The subprocesses of [update_repository] are an initial part of status,
    add, commit, push, each run in the directory of the repository: it
    starts at most four processes and no other command. *)
Theorem update_repository_runs_only_git (env : Env) (name p : string) (w : World) :
  exists k,
    k <= 4
    /\ runs_of (trace (update_repository env name (PyStr p) w).2)
       = runs_of (trace w) ++ take k (git_commands env (Path_ p)).
Proof.
  destruct (update_repository_outcome env name p w) as (k & logs & Hruns & _ & _).
  exists (k `min` 4). split; [lia|].
  rewrite Hruns. f_equal. unfold git_commands.
  destruct k as [|[|[|[|[|k]]]]]; reflexivity.
Qed.

(** X8: [True] is never the result of a sequence cut short: when
    [update_repository] returns [True], either the status query was its only
    subprocess, or status, add, commit and push were all run and add, commit
    and push each exited with status zero. *)
Theorem update_repository_true_is_all_or_nothing (env : Env) (name p : string) (w : World) :
  (update_repository env name (PyStr p) w).1 = Ok true ->
  let cwd := Path_ p in
  let h := runs_of (trace w) in
  let after_run := runs_of (trace (update_repository env name (PyStr p) w).2) in
  after_run = h ++ [(status_argv, cwd)]
  \/ (after_run = h ++ git_commands env cwd
      /\ succeeds (answer env (h ++ [(status_argv, cwd)]) add_argv cwd)
      /\ succeeds (answer env (h ++ [(status_argv, cwd); (add_argv, cwd)])
                     (commit_argv env) cwd)
      /\ succeeds (answer env (h ++ [(status_argv, cwd); (add_argv, cwd);
                                      (commit_argv env, cwd)])
                     push_argv cwd)).
Proof.
  intros Htrue cwd h after_run. subst after_run.
  destruct (update_repository_outcome env name p w) as (k & logs & Hruns & _ & Hres).
  rewrite Htrue in Hres. destruct Hres as [_ [->|(-> & Hs)]].
  - left. by rewrite Hruns.
  - right. by rewrite Hruns.
Qed.

(** A clean working copy, and a working copy whose changes are pushed. *)
Lemma update_repository_true_is_all_or_nothing_witness :
  (let r := update_repository (sample_env [clean]) "a" (PyStr repo) sample_world in
   runs_of (trace r.2) = [(status_argv, Path_ repo)]
   \/ runs_of (trace r.2) = git_commands (sample_env [clean]) (Path_ repo))
  /\ (let r := update_repository (sample_env [dirty]) "a" (PyStr repo) sample_world in
      runs_of (trace r.2) = [(status_argv, Path_ repo)]
      \/ runs_of (trace r.2) = git_commands (sample_env [dirty]) (Path_ repo)).
Proof.
  split.
  - destruct (update_repository_true_is_all_or_nothing (sample_env [clean]) "a" repo
                sample_world) as [H|[H _]].
    + reflexivity.
    + left. exact H.
    + right. exact H.
  - destruct (update_repository_true_is_all_or_nothing (sample_env [dirty]) "a" repo
                sample_world) as [H|[H _]].
    + reflexivity.
    + left. exact H.
    + right. exact H.
Defined.

(** X9: The log tells the result: when [update_repository] returns [False], the
    last record it logged is a warning or an error; when it returns [True],
    the last record it logged is at level [INFO]. *)
Theorem update_repository_log_tells_result (env : Env) (name p : string) (w : World) :
  exists logs,
    logs_of (trace (update_repository env name (PyStr p) w).2) = logs_of (trace w) ++ logs
    /\ match (update_repository env name (PyStr p) w).1 with
       | Ok true => last_level logs = Some INFO
       | Ok false => last_level logs = Some ERROR \/ last_level logs = Some WARNING
       | Raise _ => True
       end.
Proof.
  destruct (update_repository_outcome env name p w) as (k & logs & _ & Hlogs & Hres).
  exists logs. split; [done|].
  destruct (update_repository env name (PyStr p) w).1 as [[|]|e]; [|done..].
  by destruct Hres.
Qed.

(** ** The configuration file, again *)

(** X10: [_save_paths] replaces what the file held with the dump of the
    mapping, and a [load_paths] that follows gives the mapping back,
    provided the file can be written and read and [json] reads back what it
    dumped. *)
Theorem save_paths_then_load_paths (env : Env) (paths_file : Path) (paths : pyvalue)
    (w : World) :
  write_fault env paths_file = None ->
  fs w !! paths_file <> Some Dir ->
  stat_fault env paths_file = None ->
  read_fault env paths_file = None ->
  json_loads env (json_dumps env paths) = Some paths ->
  let text := json_dumps env paths in
  let saved := mkWorld (<[paths_file := File text]> (fs w))
                       (trace w ++ [EWrite paths_file text]) in
  _save_paths env paths_file paths w = (Ok tt, saved)
  /\ load_paths env paths_file saved = (Ok paths, saved).
Proof.
  intros Hwrite Hdir Hstat Hread Hjson text saved. split.
  - unfold _save_paths, try_except, write_text. rewrite Hwrite. fold text.
    destruct (fs w !! paths_file) as [[]|]; done.
  - rewrite load_paths_present.
    2:{ split; [done|]. apply bool_decide_eq_true. simpl. rewrite lookup_insert_eq.
        by eexists. }
    unfold read_text. rewrite Hread. simpl. rewrite lookup_insert_eq. simpl.
    subst text. by rewrite Hjson.
Qed.

(** The empty mapping saved over a file that held something else. *)
Lemma save_paths_then_load_paths_witness :
  let w := configured_world "invalid json" in
  let saved := (_save_paths (sample_env []) config (PyDict []) w).2 in
  fs saved !! config = Some (File "{}")
  /\ load_paths (sample_env []) config saved = (Ok (PyDict []), saved).
Proof.
  intros w saved.
  destruct (save_paths_then_load_paths (sample_env []) config (PyDict []) w)
    as [Hsave Hload]; try reflexivity.
  - by vm_compute.
  - subst saved. cbv zeta in Hsave, Hload. rewrite Hsave. simpl snd.
    split; [by vm_compute | exact Hload].
Defined.



Lemma load_paths_absent (env : Env) (paths_file : Path) (w : World) :
  exists_is env w paths_file false ->
  write_fault env paths_file = None ->
  load_paths env paths_file w
    = (Ok (PyDict []),
       mkWorld (<[paths_file := File (json_dumps env (PyDict []))]> (fs w))
               (trace w ++ [creating_record paths_file;
                            EWrite paths_file (json_dumps env (PyDict []))])).
Proof.
  intros Hp Hwrite. pose proof Hp as [_ Habsent].
  apply bool_decide_eq_false in Habsent.
  assert (fs w !! paths_file = None) as Hnone.
  { destruct (fs w !! paths_file) eqn:E; [|done]. exfalso. apply Habsent. by eexists. }
  unfold load_paths. rewrite bind_eq, (exists_eq _ _ _ _ Hp). branch.
  rewrite bind_eq, log_eq, bind_eq. cbv beta iota.
  unfold _save_paths, try_except, write_text. rewrite Hwrite. simpl fs. rewrite Hnone.
  same_world.
Qed.

(** X12: A first run, with no configuration file: [update_all_repositories]
    returns normally whether or not the file could be created, it visits no
    repository and starts no subprocess, and the last thing it logs is the
    warning that no repository path was found. *)
Theorem update_all_without_configuration (env : Env) (paths_file : Path) (w : World) :
  exists_is env w paths_file false ->
  (forall e, write_fault env paths_file = Some e -> isinstance e OSError = true) ->
  let r := update_all_repositories env paths_file w in
  r.1 = Ok tt
  /\ calls_of (trace r.2) = calls_of (trace w)
  /\ runs_of (trace r.2) = runs_of (trace w)
  /\ last (trace r.2) = Some no_paths_record.
Proof.
  intros Hp Hfault r. subst r. unfold update_all_repositories. rewrite bind_eq.
  destruct (write_fault env paths_file) as [e|] eqn:Hwrite.
  - destruct (load_paths_unwritable env paths_file w e Hp Hwrite (Hfault e eq_refl))
      as (w1 & -> & Hcalls & Hruns & _).
    cbv beta iota delta [negb truthy]. rewrite log_eq. simpl.
    rewrite calls_of_app, runs_of_app, last_app, Hcalls, Hruns. simpl.
    by rewrite !app_nil_r.
  - rewrite (load_paths_absent env paths_file w Hp Hwrite).
    cbv beta iota delta [negb truthy]. rewrite log_eq. simpl.
    rewrite <- app_assoc, calls_of_app, runs_of_app, last_app. simpl.
    by rewrite !app_nil_r.
Qed.

(** The sample files, which hold no configuration file. *)
Lemma update_all_without_configuration_witness :
  let r := update_all_repositories (sample_env [dirty]) config sample_world in
  r.1 = Ok tt /\ calls_of (trace r.2) = [] /\ runs_of (trace r.2) = []
  /\ last (trace r.2) = Some no_paths_record.
Proof.
  apply (update_all_without_configuration (sample_env [dirty]) config sample_world).
  - split; [reflexivity | by vm_compute].
  - intros e. discriminate.
Defined.

(** X13: A configuration file that decodes to an empty mapping, or to any other
    falsy value ([null], [0], an empty list or string): the run logs the
    warning and stops there, having changed nothing else. *)
Theorem update_all_empty_configuration (env : Env) (paths_file : Path) (w : World)
    (text : string) (v : pyvalue) :
  exists_is env w paths_file true ->
  (read_text env paths_file w).1 = Ok text ->
  json_loads env text = Some v ->
  truthy v = false ->
  update_all_repositories env paths_file w = (Ok tt, after w [no_paths_record]).
Proof.
  intros Hp Hr Hj Hv. unfold update_all_repositories.
  rewrite bind_eq, load_paths_present by done. rewrite Hr, Hj, Hv. done.
Qed.

(** A configuration file holding [{}]. *)
Lemma update_all_empty_configuration_witness :
  update_all_repositories (sample_env [dirty]) config (configured_world "{}")
    = (Ok tt, after (configured_world "{}") [no_paths_record]).
Proof.
  apply (update_all_empty_configuration (sample_env [dirty]) config (configured_world "{}")
           "{}" (PyDict [])).
  - split; [reflexivity | by vm_compute].
  - by vm_compute.
  - reflexivity.
  - reflexivity.
Defined.

(** X14: A configuration file that decodes to a truthy value that is not a
    mapping (a non-empty list or string, a number, [true]): the run raises
    [AttributeError] at [paths.items()], with nothing logged and no
    repository visited. *)
Theorem update_all_rejects_non_mapping (env : Env) (paths_file : Path) (w : World)
    (text : string) (v : pyvalue) :
  exists_is env w paths_file true ->
  (read_text env paths_file w).1 = Ok text ->
  json_loads env text = Some v ->
  truthy v = true ->
  is_dict v = false ->
  update_all_repositories env paths_file w = (Raise no_items_error, w).
Proof.
  intros Hp Hr Hj Hv Hd. unfold update_all_repositories.
  rewrite bind_eq, load_paths_present by done. rewrite Hr, Hj, Hv.
  cbv beta iota delta [negb]. rewrite bind_eq. by destruct v.
Qed.

(** A configuration file holding [[1]]. *)
Lemma update_all_rejects_non_mapping_witness :
  update_all_repositories (sample_env [dirty]) config (configured_world "[1]")
    = (Raise no_items_error, configured_world "[1]").
Proof.
  apply (update_all_rejects_non_mapping (sample_env [dirty]) config (configured_world "[1]")
           "[1]" (PyList [PyInt 1])).
  - split; [reflexivity | by vm_compute].
  - by vm_compute.
  - reflexivity.
  - reflexivity.
  - reflexivity.
Defined.

(** ** The loop over the mapping, again *)

Lemma update_loop_app (env : Env) (pre rest : list (string * pyvalue)) :
  forall success_count w bs w',
    run_entries env pre w = Some (bs, w') ->
    update_loop env (pre ++ rest) success_count w
      = update_loop env rest (success_count + successes bs) w'.
Proof.
  induction pre as [|[name path] pre IH]; intros c w bs w' Hrun; simpl in *.
  - injection Hrun as <- <-. simpl. by rewrite Nat.add_0_r.
  - unfold mbind, M_bind, bind.
    destruct (update_repository env name path w) as [[b|e] w1]; [|done].
    destruct (run_entries env pre w1) as [[bs1 w2]|] eqn:Hpre; [|done].
    injection Hrun as <- <-.
    rewrite (IH _ _ _ _ Hpre). simpl. f_equal. destruct b; lia.
Qed.

(** X15: The run stops at the first repository whose update raises: the
    exception leaves [update_all_repositories], the entries before it have
    been visited in order, the entries after it are not visited and no
    summary is logged. *)
Theorem update_all_stops_at_first_exception (env : Env) (paths_file : Path)
    (w w1 w2 w3 : World) (pre post : list (string * pyvalue)) (name : string)
    (path : pyvalue) (bs : list bool) (e : exn) :
  load_paths env paths_file w = (Ok (PyDict (pre ++ (name, path) :: post)), w1) ->
  run_entries env pre w1 = Some (bs, w2) ->
  update_repository env name path w2 = (Raise e, w3) ->
  update_all_repositories env paths_file w = (Raise e, w3)
  /\ calls_of (trace w3) = calls_of (trace w1) ++ pre ++ [(name, path)]
  /\ logs_of (trace w3) = logs_of (trace (update_repository env name path w2).2).
Proof.
  intros Hload Hpre Hraise.
  assert (update_all_repositories env paths_file w = (Raise e, w3)) as Hu.
  { unfold update_all_repositories. rewrite bind_eq, Hload.
    assert (truthy (PyDict (pre ++ (name, path) :: post)) = true) as ->
      by (by destruct pre).
    cbv beta iota delta [negb items].
    rewrite bind_eq. unfold mret at 1, M_ret, ret. cbv beta iota.
    rewrite bind_eq, (update_loop_app _ _ _ _ _ _ _ Hpre). simpl.
    by rewrite bind_eq, Hraise. }
  split; [done|]. split; [|by rewrite Hraise].
  destruct (run_entries_calls _ _ _ _ _ Hpre) as [Hcalls _].
  pose proof (update_repository_frame env name path w2) as (_ & evs & Htr & Hok).
  rewrite Hraise in Htr. simpl in Htr.
  rewrite Htr, calls_of_app, Hcalls. simpl. rewrite (plain_calls _ Hok).
  by rewrite <- app_assoc.
Qed.

(** The first of two repositories lies below [/srv/private]. *)
Lemma update_all_stops_at_first_exception_witness :
  let r := update_all_repositories (guarded_env [dirty]) config
             (configured_world private_first_text) in
  r.1 = Raise permission_denied
  /\ calls_of (trace r.2) = [("a", PyStr "/srv/private/repo")]
  /\ logs_of (trace r.2) = [].
Proof.
  intros r.
  destruct (update_all_stops_at_first_exception (guarded_env [dirty]) config
              (configured_world private_first_text)
              (configured_world private_first_text)
              (configured_world private_first_text)
              (after (configured_world private_first_text)
                 [ECall "a" (PyStr "/srv/private/repo")])
              [] [("b", PyStr repo)] "a" (PyStr "/srv/private/repo") []
              permission_denied) as (Hu & Hcalls & Hlogs).
  - by vm_compute.
  - reflexivity.
  - by vm_compute.
  - subst r. rewrite Hu. split; [reflexivity|]. split; [exact Hcalls | by vm_compute].
Defined.

Lemma load_paths_no_runs (env : Env) (paths_file : Path) (w : World) :
  runs_of (trace (load_paths env paths_file w).2) = runs_of (trace w).
Proof.
  unfold load_paths, exists_. rewrite bind_eq.
  destruct (stat_fault env paths_file); [done|].
  destruct (bool_decide (is_Some (fs w !! paths_file))); branch.
  - unfold try_except. rewrite bind_eq.
    pose proof (read_text_world env paths_file w) as Hw.
    destruct (read_text env paths_file w) as [[text|e] w1]; simpl in Hw; subst w1.
    + rewrite bind_eq. unfold json_load.
      destruct (json_loads env text); simpl; [done|].
      destruct (isinstance (json_error env text) JSONDecodeError); simpl; [|done].
      rewrite runs_of_app. simpl. by rewrite app_nil_r.
    + destruct (isinstance e JSONDecodeError); simpl; [|done].
      rewrite runs_of_app. simpl. by rewrite app_nil_r.
  - rewrite bind_eq, log_eq, bind_eq. cbv beta iota.
    unfold _save_paths, try_except, write_text. simpl fs.
    destruct (write_fault env paths_file) as [e|];
      [destruct (torn_write env paths_file) as [n|]|];
      try destruct (fs w !! paths_file) as [[]|];
      try destruct (isinstance e OSError);
      run_monad; rewrite <- ?app_assoc, ?runs_of_app; simpl; by rewrite ?app_nil_r.
Qed.

Lemma allowed_weaken (env : Env) (dirs dirs' : list Path) (inv : invocation) :
  dirs ⊆ dirs' -> allowed env dirs inv -> allowed env dirs' inv.
Proof. intros Hsub [Hd Hc]. split; [by apply Hsub | done]. Qed.

Lemma update_repository_allowed (env : Env) (name : string) (path : pyvalue) (w : World) :
  exists new,
    runs_of (trace (update_repository env name path w).2) = runs_of (trace w) ++ new
    /\ Forall (allowed env (directories [(name, path)])) new.
Proof.
  destruct (is_str path) eqn:Hstr.
  - destruct path as [| | | |p| |]; try done.
    destruct (update_repository_outcome env name p w) as (k & logs & Hruns & _ & _).
    eexists. split; [exact Hruns|]. apply Forall_take. simpl. unfold git_commands.
    repeat constructor; simpl; set_solver.
  - exists []. rewrite app_nil_r.
    assert (update_repository env name path w
            = (Raise not_a_path_error, after w [ECall name path])) as ->
      by (by destruct path).
    split; [|done]. simpl. rewrite runs_of_app. simpl. by rewrite app_nil_r.
Qed.

Lemma directories_cons (entry : string * pyvalue) (rest : list (string * pyvalue)) :
  directories [entry] ⊆ directories (entry :: rest)
  /\ directories rest ⊆ directories (entry :: rest).
Proof.
  destruct entry as [name path].
  destruct path; simpl; split; intros x Hx; try exact Hx; try (by inversion Hx).
  - inversion Hx; subst; [by constructor | by inversion H1].
  - by constructor.
Qed.

Lemma update_loop_allowed (env : Env) (entries : list (string * pyvalue)) :
  forall success_count w,
  exists new,
    runs_of (trace (update_loop env entries success_count w).2) = runs_of (trace w) ++ new
    /\ Forall (allowed env (directories entries)) new.
Proof.
  induction entries as [|[name path] rest IH]; intros c w.
  - exists []. by rewrite app_nil_r.
  - simpl update_loop. rewrite bind_eq.
    destruct (update_repository_allowed env name path w) as (new1 & Hr1 & Ha1).
    destruct (directories_cons (name, path) rest) as [Hsub1 Hsub2].
    destruct (update_repository env name path w) as [[b|e] w1]; simpl in Hr1.
    + destruct (IH (if b then S c else c) w1) as (new2 & Hr2 & Ha2).
      exists (new1 ++ new2). rewrite Hr2, Hr1, <- app_assoc. split; [done|].
      apply Forall_app. split; eapply Forall_impl; eauto using allowed_weaken.
    + exists new1. split; [done|].
      eapply Forall_impl; eauto using allowed_weaken.
Qed.

(** X16: [load_paths] starts no subprocess, and [update_all_repositories]
    starts no process other than the four git commands, nowhere but in the
    directories that the loaded mapping names, whatever the outcome of the
    run; when [load_paths] raises or returns something that is not a mapping,
    no process is started at all. *)
Theorem update_all_runs_git_in_configured_directories (env : Env) (paths_file : Path)
    (w : World) :
  let loaded := load_paths env paths_file w in
  runs_of (trace loaded.2) = runs_of (trace w)
  /\ exists new,
       runs_of (trace (update_all_repositories env paths_file w).2)
         = runs_of (trace w) ++ new
       /\ Forall (allowed env (directories (loaded_entries loaded.1))) new
       /\ (loaded_entries loaded.1 = [] -> new = []).
Proof.
  intros loaded. subst loaded.
  pose proof (load_paths_no_runs env paths_file w) as Hquiet.
  split; [done|].
  unfold update_all_repositories. rewrite bind_eq.
  destruct (load_paths env paths_file w) as [[v|e] w1]; simpl in Hquiet; simpl fst.
  2:{ exists []. simpl. by rewrite Hquiet, app_nil_r. }
  destruct (negb (truthy v)) eqn:Hv.
  { exists []. rewrite log_eq. simpl. rewrite runs_of_app, Hquiet. simpl.
    by rewrite !app_nil_r. }
  rewrite bind_eq.
  destruct v as [| | | | | |entries];
    try (exists []; simpl; by rewrite Hquiet, app_nil_r).
  simpl items. unfold mret at 1, M_ret, ret. cbv beta iota. rewrite bind_eq.
  destruct (update_loop_allowed env entries 0 w1) as (new & Hr & Ha).
  assert (entries <> []) as Hne by (by destruct entries).
  destruct (update_loop env entries 0 w1) as [[c|e] w2]; simpl in Hr.
  - exists new. rewrite log_eq. unfold after. simpl.
    rewrite runs_of_app, Hr, Hquiet. simpl. by rewrite app_nil_r.
  - exists new. simpl. by rewrite Hr, Hquiet.
Qed.

(** The two repositories of the sample configuration; and a configuration
    file holding a list. *)
Lemma update_all_runs_git_in_configured_directories_witness :
  (exists new,
      runs_of (trace (update_all_repositories (sample_env [dirty]) config
                        (configured_world two_repositories_text)).2) = new
      /\ Forall (allowed (sample_env [dirty]) [Path_ repo; Path_ "/missing/path"]) new)
  /\ runs_of (trace (update_all_repositories (sample_env [dirty]) config
                       (configured_world "[1]")).2) = [].
Proof.
  split.
  - destruct (update_all_runs_git_in_configured_directories (sample_env [dirty]) config
                (configured_world two_repositories_text)) as (_ & new & Hr & Ha & _).
    exists new. split; [exact Hr | exact Ha].
  - destruct (update_all_runs_git_in_configured_directories (sample_env [dirty]) config
                (configured_world "[1]")) as (_ & new & Hr & _ & Hnil).
    rewrite Hr, (Hnil eq_refl). reflexivity.
Defined.
